(** * An 8-channel fan controller: PWM duty output and FG (tachometer) feedback

    Shallow embedding of [fan_controller.py].  The controller object is a
    record of Python lists; every method becomes a function that takes the
    controller and returns the updated controller together with the method's
    return value, inside an error monad that stands for Python exceptions.

    - Python [int] is [Z]; Python [float] is modelled by exact rationals [Q]
      (no binary rounding error).  A binary quotient can fall on the other
      side of a rounding tie than the exact one, so the rounded speed of the
      model may differ from the interpreter's by one tenth when
      [hz * 60 / pulses_per_revolution] lies exactly between two tenths; the
      properties of rounded speeds are stated so that they hold whichever
      neighbour the tie goes to.
    - [time.ticks_ms()] is an input of the caller: every function that reads
      the clock takes the value read as an argument.
    - [print] calls have no effect on the controller and are left out. *)

From Stdlib Require Import ZArith QArith Qabs Qround Lia Lqa Bool.
From stdpp Require Import base option list.

Local Open Scope Z_scope.

(* ===================================================================== *)
(** ** Python exceptions as an error monad *)

Inductive exn : Type :=
| IndexError          (* list index out of range *)
| ZeroDivisionError   (* float division by zero *)
| HwError.            (* raised by a hardware collaborator *)

Inductive result (A : Type) : Type :=
| Ok (a : A)
| Raise (e : exn).
Arguments Ok {A} a.
Arguments Raise {A} e.

#[global] Instance result_ret : MRet result := fun A a => Ok a.
#[global] Instance result_bind : MBind result := fun A B f m =>
  match m with
  | Ok a => f a
  | Raise e => Raise e
  end.

(* ===================================================================== *)
(** ** Python primitives used by the controller *)

Module Py.

(** [l[i]]: a negative index counts from the end, anything outside
    [-len, len) raises [IndexError]. *)
Definition index {A} (l : list A) (i : Z) : option nat :=
  let n := Z.of_nat (length l) in
  if (0 <=? i) && (i <? n) then Some (Z.to_nat i)
  else if (- n <=? i) && (i <? 0) then Some (Z.to_nat (n + i))
  else None.

Definition getitem {A} (l : list A) (i : Z) : result A :=
  match index l i with
  | Some k => match l !! k with Some x => Ok x | None => Raise IndexError end
  | None => Raise IndexError
  end.

(** [l[i] = x] *)
Definition setitem {A} (l : list A) (i : Z) (x : A) : result (list A) :=
  match index l i with
  | Some k => Ok (<[k := x]> l)
  | None => Raise IndexError
  end.

(** [int(x)] on a float: truncation toward zero. *)
Definition int (q : Q) : Z := Z.quot (Qnum q) (Zpos (Qden q)).

(** [round(x)]: nearest integer, a tie goes to the even neighbour. *)
Definition round (q : Q) : Z :=
  let f := Qfloor q in
  match (q - inject_Z f ?= 1 # 2)%Q with
  | Lt => f
  | Gt => f + 1
  | Eq => if Z.even f then f else f + 1
  end.

(** [round(x, 1)]: one decimal place, computed on the exact value.  The
    result is a multiple of one tenth at most one twentieth away from [x];
    at a tie the exact value goes to the even neighbour, where the binary
    value of the interpreter may go to either. *)
Definition round1 (q : Q) : Q := (inject_Z (round (q * 10)) / 10)%Q.

(** [a / b] on numbers: true division, [ZeroDivisionError] when [b] is 0. *)
Definition truediv (a b : Q) : result Q :=
  if Qeq_bool b 0 then Raise ZeroDivisionError else Ok (a / b)%Q.

(** [abs(x)] *)
Definition abs (q : Q) : Q := Qabs q.

End Py.

(** [time.ticks_diff(end, start)] of MicroPython: the signed difference of
    two tick readings modulo the tick period, in
    [-TICKS_PERIOD/2, TICKS_PERIOD/2).  The ESP32 port has a period of 2^30. *)
Definition TICKS_PERIOD : Z := 2 ^ 30.

Definition ticks_diff (t_end t_start : Z) : Z :=
  Z.land (t_end - t_start + TICKS_PERIOD / 2) (TICKS_PERIOD - 1) - TICKS_PERIOD / 2.

(* ===================================================================== *)
(** ** The PWM collaborator ([machine.PWM])

    A PWM object holds the duty last written.  [pwm_faulty] tells whether the
    peripheral rejects writes: [duty(v)] on a faulty object raises. *)

Record PWM : Type := mkPWM { pwm_duty : Z; pwm_faulty : bool }.

(** [pwm.duty(v)] *)
Definition PWM_duty (p : PWM) (v : Z) : result PWM :=
  if pwm_faulty p then Raise HwError
  else Ok {| pwm_duty := v; pwm_faulty := pwm_faulty p |}.

(* ===================================================================== *)
(** ** The controller object *)

Record FanController : Type := mkFanController {
  fan_pwms : list (option PWM);      (* PWM object or None, per channel *)
  fg_counters : list Z;              (* edge counters, bumped by the IRQ handlers *)
  fg_last_time : list Z;             (* tick of the previous measurement *)
  fg_frequencies : list Q;           (* last computed frequency *)
  fg_pins_list : list (option Z);    (* Pin object (its GPIO number) or None *)
  fan_count : Z
}.

Definition set_fan_pwms (st : FanController) (v : list (option PWM)) :=
  {| fan_pwms := v; fg_counters := fg_counters st; fg_last_time := fg_last_time st;
     fg_frequencies := fg_frequencies st; fg_pins_list := fg_pins_list st;
     fan_count := fan_count st |}.
Definition set_fg_counters (st : FanController) (v : list Z) :=
  {| fan_pwms := fan_pwms st; fg_counters := v; fg_last_time := fg_last_time st;
     fg_frequencies := fg_frequencies st; fg_pins_list := fg_pins_list st;
     fan_count := fan_count st |}.
Definition set_fg_last_time (st : FanController) (v : list Z) :=
  {| fan_pwms := fan_pwms st; fg_counters := fg_counters st; fg_last_time := v;
     fg_frequencies := fg_frequencies st; fg_pins_list := fg_pins_list st;
     fan_count := fan_count st |}.
Definition set_fg_frequencies (st : FanController) (v : list Q) :=
  {| fan_pwms := fan_pwms st; fg_counters := fg_counters st; fg_last_time := fg_last_time st;
     fg_frequencies := v; fg_pins_list := fg_pins_list st;
     fan_count := fan_count st |}.

(** *** [__init__] and [_init_fg_interrupts]

    The hardware decides, per pin, whether the constructors raise.  For a
    control pin: [None] when [PWM(...)] raises, otherwise the fault flag of the
    object created with duty 0.  For a feedback pin: the [Pin] constructor may
    raise, or [irq] may raise after the pin object was already appended. *)

Definition fan_pins : list Z := [32; 33; 25; 26; 27; 14; 12; 13].
Definition fg_pins : list Z := [19; 18; 5; 17; 16; 4; 2; 15].

Inductive fg_outcome : Type := FgOk | FgPinRaises | FgIrqRaises.

Definition init_pwm (hw : Z -> option bool) (pin : Z) : option PWM :=
  match hw pin with
  | Some faulty => Some {| pwm_duty := 0; pwm_faulty := faulty |}
  | None => None
  end.

Definition init_fg_pin (hw : Z -> fg_outcome) (pin : Z) : list (option Z) :=
  match hw pin with
  | FgOk => [Some pin]
  | FgPinRaises => [None]
  | FgIrqRaises => [Some pin; None]
  end.

Definition _init_fg_interrupts (hw : Z -> fg_outcome) : list (option Z) :=
  concat (map (init_fg_pin hw) fg_pins).

Definition FanController_init (pwm_hw : Z -> option bool) (fg_hw : Z -> fg_outcome)
  : FanController :=
  {| fan_pwms := map (init_pwm pwm_hw) fan_pins;
     fg_counters := replicate 8 0;
     fg_last_time := replicate 8 0;
     fg_frequencies := replicate 8 0%Q;
     fg_pins_list := _init_fg_interrupts fg_hw;
     fan_count := Z.of_nat (length fan_pins) |}.

(** A board on which every constructor succeeds and every write is accepted. *)
Definition healthy_board : FanController :=
  FanController_init (fun _ => Some false) (fun _ => FgOk).

(** The interrupt handler installed for channel [fan_id]:
    [self.fg_counters[fan_id] += 1]. *)
Definition handler (st : FanController) (fan_id : Z) : result FanController :=
  c ← Py.getitem (fg_counters st) fan_id;
  cs ← Py.setitem (fg_counters st) fan_id (c + 1);
  Ok (set_fg_counters st cs).

(* ===================================================================== *)
(** ** Duty control *)

Definition in_range (fan_id n : Z) : bool := (0 <=? fan_id) && (fan_id <? n).

(** [set_fan_speed(fan_id, speed)], [speed] an integer percentage. *)
Definition set_fan_speed (st : FanController) (fan_id speed : Z)
  : result (FanController * bool) :=
  if negb (in_range fan_id (fan_count st)) then Ok (st, false)
  else if negb ((0 <=? speed) && (speed <=? 100)) then Ok (st, false)
  else
    p ← Py.getitem (fan_pwms st) fan_id;
    match p with
    | None => Ok (st, false)
    | Some pwm =>
        let duty := Py.int (inject_Z (speed * 1023) / 100) in
        pwm' ← PWM_duty pwm duty;
        pwms ← Py.setitem (fan_pwms st) fan_id (Some pwm');
        Ok (set_fan_pwms st pwms, true)
    end.

(** The loop of [set_all_fans_speed] from channel [i] on, for [n] channels. *)
Fixpoint set_all_loop (st : FanController) (speed : Z) (i : Z) (n : nat)
  (success_count : Z) : result (FanController * Z) :=
  match n with
  | O => Ok (st, success_count)
  | S n' =>
      '(st', ok) ← set_fan_speed st i speed;
      set_all_loop st' speed (i + 1) n'
        (if ok : bool then success_count + 1 else success_count)
  end.

(** [set_all_fans_speed(speed)] *)
Definition set_all_fans_speed (st : FanController) (speed : Z)
  : result (FanController * bool) :=
  '(st', success_count) ← set_all_loop st speed 0 (Z.to_nat (fan_count st)) 0;
  Ok (st', success_count =? fan_count st').

(** [stop_fan], [stop_all_fans] *)
Definition stop_fan (st : FanController) (fan_id : Z) := set_fan_speed st fan_id 0.
Definition stop_all_fans (st : FanController) := set_all_fans_speed st 0.

(** The loop of [emergency_stop] from channel [i] on, for [n] channels. *)
Fixpoint emergency_loop (st : FanController) (i : Z) (n : nat) : result FanController :=
  match n with
  | O => Ok st
  | S n' =>
      p ← Py.getitem (fan_pwms st) i;
      match p with
      | Some pwm =>
          pwm' ← PWM_duty pwm 0;
          pwms ← Py.setitem (fan_pwms st) i (Some pwm');
          emergency_loop (set_fan_pwms st pwms) (i + 1) n'
      | None => emergency_loop st (i + 1) n'
      end
  end.

(** [emergency_stop()] *)
Definition emergency_stop (st : FanController) : result (FanController * bool) :=
  st' ← emergency_loop st 0 (Z.to_nat (fan_count st));
  Ok (st', true).

(** The duty last written to channel [fan_id], when it has a PWM object. *)
Definition duty_of (st : FanController) (fan_id : Z) : option Z :=
  match Py.getitem (fan_pwms st) fan_id with
  | Ok (Some pwm) => Some (pwm_duty pwm)
  | _ => None
  end.

Definition duties (st : FanController) : list (option Z) :=
  map (fun p : option PWM => pwm_duty <$> p) (fan_pwms st).

(* ===================================================================== *)
(** ** Frequency measurement *)

(** [_measure_frequency] after its range check, up to the store into
    [fg_frequencies] (the counter is read here, in the computing branch). *)
Definition measure_compute (st : FanController) (fan_id current_time : Z)
  : result FanController :=
  last ← Py.getitem (fg_last_time st) fan_id;
  if 0 <? last then
    let time_diff := ticks_diff current_time last in
    if 0 <? time_diff then
      pulse_count ← Py.getitem (fg_counters st) fan_id;
      let full_pulses := (inject_Z pulse_count / 2)%Q in
      f ← Py.truediv (full_pulses * 1000) (inject_Z time_diff);
      fs ← Py.setitem (fg_frequencies st) fan_id f;
      Ok (set_fg_frequencies st fs)
    else
      fs ← Py.setitem (fg_frequencies st) fan_id 0%Q;
      Ok (set_fg_frequencies st fs)
  else
    fs ← Py.setitem (fg_frequencies st) fan_id 0%Q;
    Ok (set_fg_frequencies st fs).

(** The tail of [_measure_frequency]: reset of counter and time, and the
    returned frequency. *)
Definition measure_reset (st : FanController) (fan_id current_time : Z)
  : result (FanController * Q) :=
  cs ← Py.setitem (fg_counters st) fan_id 0;
  let st1 := set_fg_counters st cs in
  ts ← Py.setitem (fg_last_time st1) fan_id current_time;
  let st2 := set_fg_last_time st1 ts in
  f ← Py.getitem (fg_frequencies st2) fan_id;
  Ok (st2, f).

(** [_measure_frequency(fan_id)], [current_time] being what [ticks_ms()]
    returns. *)
Definition _measure_frequency (st : FanController) (fan_id current_time : Z)
  : result (FanController * Q) :=
  if negb (in_range fan_id (fan_count st)) then Ok (st, 0%Q)
  else
    st1 ← measure_compute st fan_id current_time;
    measure_reset st1 fan_id current_time.

(** [read_fan_fg_frequency(fan_id)] *)
Definition read_fan_fg_frequency (st : FanController) (fan_id current_time : Z)
  : result (FanController * Q) :=
  if negb (in_range fan_id (fan_count st)) then Ok (st, 0%Q)
  else
    p ← Py.getitem (fg_pins_list st) fan_id;
    match p with
    | None => Ok (st, 0%Q)
    | Some _ => _measure_frequency st fan_id current_time
    end.

Definition Qgt_bool (a b : Q) : bool := negb (Qle_bool a b).

(** [read_fan_rpm(fan_id, pulses_per_revolution)] *)
Definition read_fan_rpm (st : FanController) (fan_id current_time : Z)
  (pulses_per_revolution : Q) : result (FanController * Q) :=
  '(st', frequency) ← read_fan_fg_frequency st fan_id current_time;
  if Qgt_bool frequency 0 then
    rpm ← Py.truediv (frequency * 60) pulses_per_revolution;
    Ok (st', Py.round1 rpm)
  else Ok (st', 0%Q).

(** [read_fan_feedback(fan_id, threshold_rpm)] *)
Definition read_fan_feedback (st : FanController) (fan_id current_time : Z)
  (threshold_rpm : Q) : result (FanController * bool) :=
  '(st', rpm) ← read_fan_rpm st fan_id current_time 2;
  Ok (st', Qgt_bool rpm threshold_rpm).

(* ===================================================================== *)
(** ** Interrupts

    An edge on the feedback pin of channel [c] runs the handler installed for
    it; only channels in [range(fan_count)] have one. *)

Definition irq (st : FanController) (c : Z) : result FanController :=
  if in_range c (fan_count st) then handler st c else Ok st.

Fixpoint deliver (st : FanController) (cs : list Z) : result FanController :=
  match cs with
  | [] => Ok st
  | c :: cs' => st' ← irq st c; deliver st' cs'
  end.

(** [_measure_frequency] with interrupts: the edges [irqs] arrive after the
    counter has been read and before it is reset. *)
Definition _measure_frequency_irq (st : FanController) (fan_id current_time : Z)
  (irqs : list Z) : result (FanController * Q) :=
  if negb (in_range fan_id (fan_count st)) then
    st' ← deliver st irqs; Ok (st', 0%Q)
  else
    st1 ← measure_compute st fan_id current_time;
    st2 ← deliver st1 irqs;
    measure_reset st2 fan_id current_time.

(* ===================================================================== *)
(** ** Well-formed controllers *)

Definition wf (st : FanController) : Prop :=
  0 <= fan_count st /\
  Z.of_nat (length (fan_pwms st)) = fan_count st /\
  Z.of_nat (length (fg_counters st)) = fan_count st /\
  Z.of_nat (length (fg_last_time st)) = fan_count st /\
  Z.of_nat (length (fg_frequencies st)) = fan_count st /\
  fan_count st <= Z.of_nat (length (fg_pins_list st)).

Definition counter_of (st : FanController) (fan_id : Z) : Z :=
  default 0 (fg_counters st !! Z.to_nat fan_id).
Definition last_time_of (st : FanController) (fan_id : Z) : Z :=
  default 0 (fg_last_time st !! Z.to_nat fan_id).
Definition frequency_of (st : FanController) (fan_id : Z) : Q :=
  default 0%Q (fg_frequencies st !! Z.to_nat fan_id).

(* ===================================================================== *)
(** ** Waiting for a stable speed

    What the outside world supplies to one turn of the polling loop of
    [wait_for_rpm_stabilization]: the clock value read by the loop condition,
    the edges that arrive before the measurement, and the clock value read by
    the measurement.  [time.sleep] only lets time pass. *)

Record poll_env : Type := mkPoll { t_check : Z; edges : list Z; t_meas : Z }.

Inductive verdict : Type :=
| Stable      (* [return True] *)
| TimedOut    (* [return False] *)
| Sampling.   (* still in the loop when the supplied trace ends *)

(** One logged turn: elapsed ticks at the loop condition, the speed read, and
    [stable_count] at the end of the turn. *)
Definition poll_log : Type := list (Z * Q * Z).

Definition required_stable_count : Z := 3.

Fixpoint wait_loop (st : FanController) (fan_id : Z) (target_rpm : Q) (timeout : Z)
  (tolerance : Q) (start_time : Z) (stable_count : Z) (world : list poll_env)
  : result (FanController * verdict * poll_log) :=
  match world with
  | [] => Ok (st, Sampling, [])
  | w :: world' =>
      let elapsed := ticks_diff (t_check w) start_time in
      if elapsed <? timeout * 1000 then
        st0 ← deliver st (edges w);
        '(st1, current_rpm) ← read_fan_rpm st0 fan_id (t_meas w) 2;
        let rpm_diff := Py.abs (current_rpm - target_rpm) in
        if Qle_bool rpm_diff tolerance then
          let stable_count := stable_count + 1 in
          if required_stable_count <=? stable_count then
            Ok (st1, Stable, [(elapsed, current_rpm, stable_count)])
          else
            '(st2, v, log) ← wait_loop st1 fan_id target_rpm timeout tolerance
                               start_time stable_count world';
            Ok (st2, v, (elapsed, current_rpm, stable_count) :: log)
        else
          '(st2, v, log) ← wait_loop st1 fan_id target_rpm timeout tolerance
                             start_time 0 world';
          Ok (st2, v, (elapsed, current_rpm, 0) :: log)
      else
        st0 ← deliver st (edges w);
        '(st1, final_rpm) ← read_fan_rpm st0 fan_id (t_meas w) 2;
        Ok (st1, TimedOut, [(elapsed, final_rpm, stable_count)])
  end.

(** [wait_for_rpm_stabilization(fan_id, target_rpm, timeout, tolerance)];
    [start_time] is the clock value read on entry. *)
Definition wait_for_rpm_stabilization (st : FanController) (fan_id : Z)
  (target_rpm : Q) (timeout : Z) (tolerance : Q) (start_time : Z)
  (world : list poll_env) : result (FanController * verdict * poll_log) :=
  wait_loop st fan_id target_rpm timeout tolerance start_time 0 world.

Definition samples (log : poll_log) : list (Z * Q) := map fst log.
Definition stable_counts (log : poll_log) : list Z := map snd log.

(** The speeds [read_fan_rpm] returns when it is called once per turn of
    [world]: the edges of a turn arrive first, then the channel is read at the
    turn's measurement tick. *)
Fixpoint polls (st : FanController) (fan_id : Z) (world : list poll_env)
  : result (FanController * list Q) :=
  match world with
  | [] => Ok (st, [])
  | w :: world' =>
      st0 ← deliver st (edges w);
      '(st1, rpm) ← read_fan_rpm st0 fan_id (t_meas w) 2;
      '(st2, rpms) ← polls st1 fan_id world';
      Ok (st2, rpm :: rpms)
  end.

(** The stabilization monitor as a step function on one sample, in the words
    of its description: a sample within tolerance extends the run of hits, any
    other sample resets it, [required] hits in a row are [Stable], and a
    sampling monitor whose deadline test [expired] fires is [TimedOut].  The
    state is the phase together with the hit counter. *)
Module Monitor.

Definition hit (target_rpm tolerance rpm : Q) : bool :=
  Qle_bool (Qabs (rpm - target_rpm)) tolerance.

Definition poll (expired : Z -> bool) (target_rpm tolerance : Q) (required : Z)
  (s : verdict * Z) (sample : Z * Q) : verdict * Z :=
  match fst s with
  | Sampling =>
      if expired (fst sample) then (TimedOut, snd s)
      else if hit target_rpm tolerance (snd sample) then
        let hits := snd s + 1 in
        if required <=? hits then (Stable, hits) else (Sampling, hits)
      else (Sampling, 0)
  | _ => s
  end.

Definition run (expired : Z -> bool) (target_rpm tolerance : Q) (required : Z)
  (s : verdict * Z) (xs : list (Z * Q)) : verdict * Z :=
  fold_left (poll expired target_rpm tolerance required) xs s.

(** The states passed through, one per sample. *)
Fixpoint trace (expired : Z -> bool) (target_rpm tolerance : Q) (required : Z)
  (s : verdict * Z) (xs : list (Z * Q)) : list (verdict * Z) :=
  match xs with
  | [] => []
  | x :: xs' =>
      let s' := poll expired target_rpm tolerance required s x in
      s' :: trace expired target_rpm tolerance required s' xs'
  end.

(** Deadline tests on elapsed milliseconds, [timeout] in seconds: elapsed
    time beyond the timeout, and elapsed time that has reached it. *)
Definition exceeded (timeout elapsed : Z) : bool := timeout * 1000 <? elapsed.
Definition reached (timeout elapsed : Z) : bool := timeout * 1000 <=? elapsed.

End Monitor.

(* ===================================================================== *)
(** ** Edges and measurements interleaved

    A trace of the two contexts: [Edge c] is an edge on channel [c] between two
    calls of the sampler, [Measure fan_id now irqs] is one call of
    [_measure_frequency] during which the edges [irqs] arrive between the read
    of the counter and its reset. *)

Inductive event : Type :=
| Edge (c : Z)
| Measure (fan_id now : Z) (irqs : list Z).

(** Whether a measurement of [fan_id] at [now] reads the counter. *)
Definition window_open (st : FanController) (fan_id now : Z) : bool :=
  (0 <? last_time_of st fan_id) && (0 <? ticks_diff now (last_time_of st fan_id)).

(** The number of edges a returned frequency reports for a window of
    [elapsed] milliseconds: [hz = count / 2 / (elapsed / 1000)] read
    backwards, to the nearest integer. *)
Definition edges_of_frequency (hz : Q) (elapsed : Z) : Z :=
  Py.round (hz * inject_Z elapsed / 500).

Fixpoint occurrences (c : Z) (cs : list Z) : Z :=
  match cs with
  | [] => 0
  | x :: cs' => (if x =? c then 1 else 0) + occurrences c cs'
  end.

(** Edges of channel [c] delivered by a trace. *)
Fixpoint delivered (c : Z) (evs : list event) : Z :=
  match evs with
  | [] => 0
  | Edge e :: evs' => (if e =? c then 1 else 0) + delivered c evs'
  | Measure _ _ irqs :: evs' => occurrences c irqs + delivered c evs'
  end.

Record tally : Type := mkTally {
  final : FanController;
  observed : Z;   (* sum of the counts the channel's measurements reported *)
  lost : Z        (* counts zeroed by a reset without having been reported *)
}.

(** A run of a trace from [st].  What a measurement of channel [c] adds to
    [observed] is read off the frequency it returns, over the window that
    ends at its [now]. *)

Fixpoint run (c : Z) (st : FanController) (evs : list event) : result tally :=
  match evs with
  | [] => Ok {| final := st; observed := 0; lost := 0 |}
  | Edge e :: evs' => st' ← irq st e; run c st' evs'
  | Measure fan_id now irqs :: evs' =>
      '(st', hz) ← _measure_frequency_irq st fan_id now irqs;
      t ← run c st' evs';
      if fan_id =? c then
        let seen := edges_of_frequency hz (ticks_diff now (last_time_of st c)) in
        Ok {| final := final t;
              observed := seen + observed t;
              lost := (counter_of st c + occurrences c irqs - seen) + lost t |}
      else Ok t
  end.

(** No edge of channel [c] falls inside a measurement of [c], and every
    measurement of [c] finds an open window; [last] is the channel's
    timestamp when the trace starts. *)
Fixpoint clean_trace (c last : Z) (evs : list event) : Prop :=
  match evs with
  | [] => True
  | Edge _ :: evs' => clean_trace c last evs'
  | Measure fan_id now irqs :: evs' =>
      if fan_id =? c then
        0 < last /\ 0 < ticks_diff now last /\ occurrences c irqs = 0 /\
        clean_trace c now evs'
      else clean_trace c last evs'
  end.

(* ===================================================================== *)
(** ** Derived notions and sample boards *)

(** The duty [set_fan_speed] computes: the quotient truncated. *)
Definition duty_for (speed : Z) : Z := (speed * 1023) ÷ 100.

Definition valid_speed (speed : Z) : bool := (0 <=? speed) && (speed <=? 100).

(** What a successful write does to one entry of [fan_pwms]. *)
Definition written (d : Z) (p : option PWM) : option PWM :=
  (fun pwm => {| pwm_duty := d; pwm_faulty := pwm_faulty pwm |}) <$> p.

Definition accepts_writes (p : option PWM) : Prop :=
  match p with Some pwm => pwm_faulty pwm = false | None => True end.

Definition no_faulty (st : FanController) : Prop := Forall accepts_writes (fan_pwms st).

(** A bank whose fourth channel (index 3, GPIO 26) has no PWM object. *)
Definition bank_without_channel_3 : FanController :=
  FanController_init (fun pin => if pin =? 26 then None else Some false) (fun _ => FgOk).

(** A bank whose first PWM object rejects writes. *)
Definition bank_faulty_channel_0 : FanController :=
  FanController_init (fun pin => Some (pin =? 32)) (fun _ => FgOk).

(** The frequency a measurement stores and returns. *)
Definition frequency_value (st : FanController) (fan_id now : Z) : Q :=
  if window_open st fan_id now then
    (inject_Z (counter_of st fan_id) / 2 * 1000
       / inject_Z (ticks_diff now (last_time_of st fan_id)))%Q
  else 0%Q.

(** The controller a measurement leaves behind. *)
Definition measured (st : FanController) (fan_id now : Z) : FanController :=
  let k := Z.to_nat fan_id in
  {| fan_pwms := fan_pwms st;
     fg_counters := <[k := 0]> (fg_counters st);
     fg_last_time := <[k := now]> (fg_last_time st);
     fg_frequencies := <[k := frequency_value st fan_id now]> (fg_frequencies st);
     fg_pins_list := fg_pins_list st;
     fan_count := fan_count st |}.

(** A board that has been sampled once at tick 1000 on channel 0 and has then
    received [n] edges on that channel. *)
Definition board_with_edges (n : nat) : FanController :=
  match '(st, _) ← _measure_frequency healthy_board 0 1000; deliver st (replicate n 0) with
  | Ok st => st
  | Raise _ => healthy_board
  end.

(** A board on which [irq()] raises for the second feedback pin (channel 1,
    GPIO 18); every other call of the constructor succeeds. *)
Definition board_irq_raises_1 : FanController :=
  FanController_init (fun _ => Some false)
    (fun pin => if pin =? 18 then FgIrqRaises else FgOk).


(** A board whose third feedback pin could not be constructed. *)
Definition board_without_feedback_2 : FanController :=
  FanController_init (fun _ => Some false)
    (fun pin => if pin =? 5 then FgPinRaises else FgOk).

(** [self.fg_counters[fan_id] = v], written from outside the controller. *)
Definition poke_counter (st : FanController) (fan_id v : Z) : FanController :=
  set_fg_counters st (<[Z.to_nat fan_id := v]> (fg_counters st)).

(** A turn that neither ends the wait nor sees the deadline. *)
Definition turn_continues (timeout : Z) (x : Z * Q * Z) : Prop :=
  x.1.1 < timeout * 1000 /\ x.2 < required_stable_count.

(** What the log looks like for each verdict. *)
Definition verdict_shape (timeout : Z) (v : verdict) (log : poll_log) (turns : nat)
  : Prop :=
  match v with
  | Stable =>
      exists log' e rpm,
        log = log' ++ [(e, rpm, required_stable_count)] /\
        e < timeout * 1000 /\ Forall (turn_continues timeout) log'
  | TimedOut =>
      exists log' e rpm c,
        log = log' ++ [(e, rpm, c)] /\
        timeout * 1000 <= e /\ c < required_stable_count /\
        Forall (turn_continues timeout) log'
  | Sampling => Forall (turn_continues timeout) log /\ length log = turns
  end.

(** The world of the worked example: channel 0 was sampled at tick 1000, the
    wait starts at that tick, and each turn delivers the edges that make the
    3000 ms window read 2000, 3010, 3040 and 3005 RPM. *)
Definition example_world : list poll_env :=
  [mkPoll 1000 (replicate 400 0) 4000;
   mkPoll 4500 (replicate 602 0) 7000;
   mkPoll 7500 (replicate 608 0) 10000;
   mkPoll 10500 (replicate 601 0) 13000].

(* ===================================================================== *)
(** ** Reading every channel, and the status report *)

Module PyDict.

(** A [dict] with integer keys, in insertion order. *)
Definition dict (V : Type) : Type := list (Z * V).

(** [d[k] = v]: an existing key keeps its place, a new key goes last. *)
Fixpoint setitem {V} (d : dict V) (k : Z) (v : V) : dict V :=
  match d with
  | [] => [(k, v)]
  | (k', v') :: d' =>
      if k' =? k then (k, v) :: d' else (k', v') :: setitem d' k v
  end.

(** [d[k]]; a missing key raises [KeyError], which the error type reports
    as its lookup error [IndexError]. *)
Fixpoint getitem {V} (d : dict V) (k : Z) : result V :=
  match d with
  | [] => Raise IndexError
  | (k', v') :: d' => if k' =? k then Ok v' else getitem d' k
  end.

End PyDict.

(** The loop of [read_all_fans_rpm] from channel [i] on, for [n] channels;
    [clock i] is the tick read while channel [i] is measured. *)
Fixpoint read_all_loop (st : FanController) (clock : Z -> Z) (ppr : Q) (i : Z)
  (n : nat) (rpm_data : PyDict.dict Q) : result (FanController * PyDict.dict Q) :=
  match n with
  | O => Ok (st, rpm_data)
  | S n' =>
      '(st', rpm) ← read_fan_rpm st i (clock i) ppr;
      read_all_loop st' clock ppr (i + 1) n' (PyDict.setitem rpm_data i rpm)
  end.

(** [read_all_fans_rpm(pulses_per_revolution)] *)
Definition read_all_fans_rpm (st : FanController) (clock : Z -> Z) (ppr : Q)
  : result (FanController * PyDict.dict Q) :=
  read_all_loop st clock ppr 0 (Z.to_nat (fan_count st)) [].

(** [read_all_fans_feedback(threshold_rpm)] *)
Definition read_all_fans_feedback (st : FanController) (clock : Z -> Z)
  (threshold_rpm : Q) : result (FanController * PyDict.dict bool) :=
  '(st', rpm_data) ← read_all_fans_rpm st clock 2;
  Ok (st',
      fold_left
        (fun feedback_status (item : Z * Q) =>
           PyDict.setitem feedback_status (fst item) (Qgt_bool (snd item) threshold_rpm))
        rpm_data []).

(** The percentage [get_status_report] shows for a duty read back from the
    PWM object: [int(current_duty * 100 / 1023)]. *)
Definition status_speed (current_duty : Z) : Z :=
  Py.int (inject_Z (current_duty * 100) / 1023).

(** One printed line of the report: percentage, speed of the first pass,
    frequency read for the line, and whether the line says "normal". *)
Record report_row : Type := mkRow {
  row_speed : Z; row_rpm : Q; row_fg : Q; row_normal : bool
}.

(** The loop of [get_status_report] over the channels; a channel without PWM
    object prints a line without values ([None]). *)
Fixpoint status_loop (st : FanController) (clock : Z -> Z)
  (rpm_data : PyDict.dict Q) (feedback_status : PyDict.dict bool)
  (i : Z) (n : nat) (rows : list (option report_row))
  : result (FanController * list (option report_row)) :=
  match n with
  | O => Ok (st, rows)
  | S n' =>
      p ← Py.getitem (fan_pwms st) i;
      match p with
      | Some pwm =>
          let current_duty := pwm_duty pwm in
          let current_speed := status_speed current_duty in
          rpm ← PyDict.getitem rpm_data i;
          '(st', fg_freq) ← read_fan_fg_frequency st i (clock i);
          normal ← PyDict.getitem feedback_status i;
          status_loop st' clock rpm_data feedback_status (i + 1) n'
            (rows ++ [Some {| row_speed := current_speed; row_rpm := rpm;
                              row_fg := fg_freq; row_normal := normal |}])
      | None =>
          status_loop st clock rpm_data feedback_status (i + 1) n' (rows ++ [None])
      end
  end.

(** [get_status_report(detailed)]: the three passes over the channels read
    the clock through [clock1], [clock2] and [clock3]; [detailed] only selects
    which of the values of a line are printed. *)
Definition get_status_report (st : FanController) (clock1 clock2 clock3 : Z -> Z)
  : result (FanController * PyDict.dict Q * list (option report_row)) :=
  '(st1, rpm_data) ← read_all_fans_rpm st clock1 2;
  '(st2, feedback_status) ← read_all_fans_feedback st1 clock2 500;
  '(st3, rows) ← status_loop st2 clock3 rpm_data feedback_status 0
                   (Z.to_nat (fan_count st2)) [];
  Ok (st3, rpm_data, rows).

(** A channel whose entry in [fg_pins_list] holds a pin object: what the
    readers test.  After a raising [irq()] call the entries behind it belong
    to the pins of the channels before them. *)
Definition pinned (st : FanController) (fan_id : Z) : Prop :=
  exists pin, Py.getitem (fg_pins_list st) fan_id = Ok (Some pin).

(** Every counter is at least 0. *)
Definition counters_nonneg (st : FanController) : Prop :=
  Forall (fun c => 0 <= c) (fg_counters st).

(** Number of feedback pins whose [irq] call raises. *)
Definition irq_failures (hw : Z -> fg_outcome) (pins : list Z) : nat :=
  sum_list_with (fun pin => match hw pin with FgIrqRaises => 1 | _ => 0 end)%nat pins.

(* ===================================================================== *)
(** ** Notions used by the further properties *)

(** What a read leaves behind for the next read of the same channel. *)
Definition read_done (st st1 : FanController) (fan_id : Z) : Prop :=
  wf st1 /\ fan_count st1 = fan_count st /\ fg_pins_list st1 = fg_pins_list st /\
  (pinned st fan_id -> counter_of st1 fan_id = 0).

(** A logged turn whose speed was within tolerance and whose loop condition
    found the elapsed time below the timeout. *)
Definition turn_hits (target_rpm tolerance : Q) (timeout : Z) (x : Z * Q * Z) : Prop :=
  Monitor.hit target_rpm tolerance x.1.2 = true /\ x.1.1 < timeout * 1000.

(** The channel ids [j, j+1, ..., j+n-1]. *)
Fixpoint range_from (j : Z) (n : nat) : list Z :=
  match n with
  | O => []
  | S n' => j :: range_from (j + 1) n'
  end.

(** No channel whose entry in [fg_pins_list] holds a pin object has edges
    pending. *)
Definition drained (st : FanController) : Prop :=
  forall c, in_range c (fan_count st) = true -> pinned st c -> counter_of st c = 0.

(** A printed line against the PWM object of its channel and the speed the
    first pass read for it. *)
Definition row_matches (row : option report_row) (pv : option PWM * Q) : Prop :=
  match pv.1, row with
  | Some pwm, Some r =>
      row_speed r = status_speed (pwm_duty pwm) /\ row_rpm r = pv.2 /\
      row_normal r = false /\ (row_fg r == 0)%Q
  | None, None => True
  | _, _ => False
  end.

(** ** The configuration manager ([config_manager.py])

    [ConfigManager.config] is a dictionary of dictionaries with fixed keys;
    it is a record here.  The values it starts from come from constants that
    [config.py] does not define, so the starting configuration is any value of
    the record. *)
Record ErrorHandling : Type := mkErrorHandling {
  retry_count : Z; retry_delay : Q; ignore_missing_fans : bool
}.

Record Config : Type := mkConfig {
  pins_control : list Z;             (* config['pins']['control'] *)
  pins_fg : list Z;                  (* config['pins']['fg'] *)
  pwm_frequency : Z;                 (* config['pwm']['frequency'] *)
  pwm_resolution : Z;                (* config['pwm']['resolution'] *)
  system_timeout : Q;                (* config['system']['timeout'] *)
  stability_threshold : Q;           (* config['system']['stability_threshold'] *)
  stability_wait_time : Q;           (* config['system']['stability_wait_time'] *)
  fans_pulses_per_revolution : Z;    (* config['fans']['pulses_per_revolution'] *)
  fans_min_rpm : Q;                  (* config['fans']['min_rpm'] *)
  fans_max_rpm : Q;                  (* config['fans']['max_rpm'] *)
  error_handling : ErrorHandling     (* config['error_handling'] *)
}.

Definition Qbetween (lo x hi : Q) : bool := Qle_bool lo x && Qle_bool x hi.
Definition Zbetween (lo x hi : Z) : bool := (lo <=? x) && (x <=? hi).

Inductive config_error : Type :=
| FrequencyOutOfRange | TimeoutOutOfRange | ThresholdOutOfRange
| PulsesOutOfRange | RpmOrder | PinCount | PinConflict.

(** The list [errors] that [validate_config] builds. *)
Definition validate_errors (cfg : Config) : list config_error :=
  let errors := [] in
  let errors := if negb (Zbetween 1000 (pwm_frequency cfg) 50000)
                then errors ++ [FrequencyOutOfRange] else errors in
  let errors := if negb (Qbetween 1 (system_timeout cfg) 300)
                then errors ++ [TimeoutOutOfRange] else errors in
  let errors := if negb (Qbetween 1 (stability_threshold cfg) 50)
                then errors ++ [ThresholdOutOfRange] else errors in
  let errors := if negb (Zbetween 1 (fans_pulses_per_revolution cfg) 10)
                then errors ++ [PulsesOutOfRange] else errors in
  let errors := if Qle_bool (fans_max_rpm cfg) (fans_min_rpm cfg)
                then errors ++ [RpmOrder] else errors in
  let errors := if negb (length (pins_control cfg) =? 8)%nat
                   || negb (length (pins_fg cfg) =? 8)%nat
                then errors ++ [PinCount] else errors in
  let all_pins := pins_control cfg ++ pins_fg cfg in
  let errors := if negb (length all_pins =? length (remove_dups all_pins))%nat
                then errors ++ [PinConflict] else errors in
  errors.

(** [validate_config()] *)
Definition validate_config (cfg : Config) : bool :=
  match validate_errors cfg with
  | [] => true
  | _ => false
  end.

(** One turn of the menu of [edit_config]: the item chosen and what the
    conversion of the typed value gave ([None] when it raised [ValueError]). *)
Inductive edit_input : Type :=
| EditFrequency (entry : option Z)
| EditTimeout (entry : option Q)
| EditThreshold (entry : option Q)
| EditPulses (entry : option Z)
| EditDone
| EditOther.

Definition set_pwm_frequency (cfg : Config) (v : Z) : Config :=
  {| pins_control := pins_control cfg; pins_fg := pins_fg cfg;
     pwm_frequency := v; pwm_resolution := pwm_resolution cfg;
     system_timeout := system_timeout cfg;
     stability_threshold := stability_threshold cfg;
     stability_wait_time := stability_wait_time cfg;
     fans_pulses_per_revolution := fans_pulses_per_revolution cfg;
     fans_min_rpm := fans_min_rpm cfg; fans_max_rpm := fans_max_rpm cfg;
     error_handling := error_handling cfg |}.
Definition set_system_timeout (cfg : Config) (v : Q) : Config :=
  {| pins_control := pins_control cfg; pins_fg := pins_fg cfg;
     pwm_frequency := pwm_frequency cfg; pwm_resolution := pwm_resolution cfg;
     system_timeout := v;
     stability_threshold := stability_threshold cfg;
     stability_wait_time := stability_wait_time cfg;
     fans_pulses_per_revolution := fans_pulses_per_revolution cfg;
     fans_min_rpm := fans_min_rpm cfg; fans_max_rpm := fans_max_rpm cfg;
     error_handling := error_handling cfg |}.
Definition set_stability_threshold (cfg : Config) (v : Q) : Config :=
  {| pins_control := pins_control cfg; pins_fg := pins_fg cfg;
     pwm_frequency := pwm_frequency cfg; pwm_resolution := pwm_resolution cfg;
     system_timeout := system_timeout cfg;
     stability_threshold := v;
     stability_wait_time := stability_wait_time cfg;
     fans_pulses_per_revolution := fans_pulses_per_revolution cfg;
     fans_min_rpm := fans_min_rpm cfg; fans_max_rpm := fans_max_rpm cfg;
     error_handling := error_handling cfg |}.
Definition set_pulses_per_revolution (cfg : Config) (v : Z) : Config :=
  {| pins_control := pins_control cfg; pins_fg := pins_fg cfg;
     pwm_frequency := pwm_frequency cfg; pwm_resolution := pwm_resolution cfg;
     system_timeout := system_timeout cfg;
     stability_threshold := stability_threshold cfg;
     stability_wait_time := stability_wait_time cfg;
     fans_pulses_per_revolution := v;
     fans_min_rpm := fans_min_rpm cfg; fans_max_rpm := fans_max_rpm cfg;
     error_handling := error_handling cfg |}.

(** The body of the loop of [edit_config] for one turn that does not leave
    the menu. *)
Definition edit_turn (cfg : Config) (i : edit_input) : Config :=
  match i with
  | EditFrequency (Some freq) =>
      if Zbetween 1000 freq 50000 then set_pwm_frequency cfg freq else cfg
  | EditTimeout (Some timeout) =>
      if Qbetween 1 timeout 300 then set_system_timeout cfg timeout else cfg
  | EditThreshold (Some threshold) =>
      if Qbetween 1 threshold 50 then set_stability_threshold cfg threshold else cfg
  | EditPulses (Some pulses) =>
      if Zbetween 1 pulses 10 then set_pulses_per_revolution cfg pulses else cfg
  | _ => cfg
  end.

(** [edit_config()] on the turns typed by the user; the loop ends at the
    first [EditDone]. *)
Fixpoint edit_config (cfg : Config) (inputs : list edit_input) : Config :=
  match inputs with
  | [] => cfg
  | EditDone :: _ => cfg
  | i :: inputs' => edit_config (edit_turn cfg i) inputs'
  end.

Definition sample_config : Config :=
  {| pins_control := fan_pins; pins_fg := fg_pins;
     pwm_frequency := 25000; pwm_resolution := 1023;
     system_timeout := 10; stability_threshold := 5; stability_wait_time := 3;
     fans_pulses_per_revolution := 2; fans_min_rpm := 500; fans_max_rpm := 6000;
     error_handling := {| retry_count := 3; retry_delay := 1 # 2;
                          ignore_missing_fans := true |} |}.

Definition pin_count_wrong (cfg : Config) : bool :=
  negb (length (pins_control cfg) =? 8)%nat || negb (length (pins_fg cfg) =? 8)%nat.

Definition pin_conflict (cfg : Config) : bool :=
  negb (length (pins_control cfg ++ pins_fg cfg)
        =? length (remove_dups (pins_control cfg ++ pins_fg cfg)))%nat.

(* ===================================================================== *)
(** * Properties *)

(** ** The error monad and list access *)

Section ListAccess.
Context {A : Type}.
Implicit Types (l : list A) (i : Z) (x : A).

Lemma index_in_range l i :
  0 <= i < Z.of_nat (length l) -> Py.index l i = Some (Z.to_nat i).
Proof.
  intros [H0 H1]. unfold Py.index.
  apply Z.leb_le in H0. apply Z.ltb_lt in H1. now rewrite H0, H1.
Qed.

Lemma getitem_in_range l i :
  0 <= i < Z.of_nat (length l) ->
  exists x, l !! Z.to_nat i = Some x /\ Py.getitem l i = Ok x.
Proof.
  intros Hi. unfold Py.getitem. rewrite (index_in_range l i Hi).
  destruct (lookup_lt_is_Some_2 l (Z.to_nat i)) as [x Hx]; [lia|].
  exists x. now rewrite Hx.
Qed.

Lemma setitem_in_range l i x :
  0 <= i < Z.of_nat (length l) ->
  Py.setitem l i x = Ok (<[Z.to_nat i := x]> l).
Proof. intros Hi. unfold Py.setitem. now rewrite (index_in_range l i Hi). Qed.
End ListAccess.

Lemma in_range_spec fan_id n : in_range fan_id n = true <-> 0 <= fan_id < n.
Proof. unfold in_range. rewrite andb_true_iff, Z.leb_le, Z.ltb_lt. tauto. Qed.

(** ** Well-formedness is established by the constructor and kept *)

Lemma init_fg_length hw pins :
  (length pins <= length (concat (map (init_fg_pin hw) pins)))%nat.
Proof.
  induction pins as [|p pins IH]; simpl; [lia|].
  rewrite length_app. unfold init_fg_pin at 1. destruct (hw p); simpl; lia.
Qed.

(** When no [irq] call raises, [fg_pins_list] has one entry per channel, and
    the entry is [None] exactly for the pins whose constructor raised. *)
Lemma init_fg_aligned hw :
  (forall pin, hw pin <> FgIrqRaises) ->
  _init_fg_interrupts hw =
    map (fun pin => match hw pin with FgOk => Some pin | _ => None end) fg_pins.
Proof.
  intros Hno. unfold _init_fg_interrupts.
  induction fg_pins as [|pin pins IH]; [reflexivity|].
  cbn [map concat]. rewrite IH. unfold init_fg_pin.
  pose proof (Hno pin). destruct (hw pin); [reflexivity | reflexivity | congruence].
Qed.

Lemma FanController_init_wf pwm_hw fg_hw : wf (FanController_init pwm_hw fg_hw).
Proof.
  unfold wf, FanController_init, _init_fg_interrupts.
  cbn [fan_count fan_pwms fg_counters fg_last_time fg_frequencies fg_pins_list].
  pose proof (init_fg_length fg_hw fg_pins) as H.
  rewrite length_map, !length_replicate.
  change (length fan_pins) with 8%nat. change (length fg_pins) with 8%nat in H.
  repeat split; lia.
Qed.

Lemma wf_set_fan_pwms st v :
  wf st -> length v = length (fan_pwms st) -> wf (set_fan_pwms st v).
Proof. unfold wf; simpl. intros H Hv. rewrite Hv. exact H. Qed.

Lemma wf_set_fg_counters st v :
  wf st -> length v = length (fg_counters st) -> wf (set_fg_counters st v).
Proof. unfold wf; simpl. intros H Hv. rewrite Hv. exact H. Qed.

Lemma wf_set_fg_last_time st v :
  wf st -> length v = length (fg_last_time st) -> wf (set_fg_last_time st v).
Proof. unfold wf; simpl. intros H Hv. rewrite Hv. exact H. Qed.

Lemma wf_set_fg_frequencies st v :
  wf st -> length v = length (fg_frequencies st) -> wf (set_fg_frequencies st v).
Proof. unfold wf; simpl. intros H Hv. rewrite Hv. exact H. Qed.

(** ** Duty control *)

Lemma int_duty speed : Py.int (inject_Z (speed * 1023) / 100) = duty_for speed.
Proof. unfold Py.int, duty_for. simpl. now rewrite Z.mul_1_r. Qed.

Lemma set_fan_speed_invalid st fan_id speed :
  in_range fan_id (fan_count st) = false \/ valid_speed speed = false ->
  set_fan_speed st fan_id speed = Ok (st, false).
Proof.
  unfold set_fan_speed, valid_speed. intros [H|H].
  - now rewrite H.
  - rewrite H. now destruct (in_range fan_id (fan_count st)).
Qed.

Lemma set_fan_speed_valid st fan_id speed :
  wf st -> in_range fan_id (fan_count st) = true -> valid_speed speed = true ->
  no_faulty st ->
  exists p,
    fan_pwms st !! Z.to_nat fan_id = Some p /\
    set_fan_speed st fan_id speed =
      Ok (set_fan_pwms st (<[Z.to_nat fan_id := written (duty_for speed) p]> (fan_pwms st)),
          bool_decide (is_Some p)).
Proof.
  intros Hwf Hr Hs Hnf. pose proof Hr as Hr'. apply in_range_spec in Hr'.
  destruct Hwf as (_ & Hlen & _).
  destruct (getitem_in_range (fan_pwms st) fan_id) as (p & Hp & Hg); [lia|].
  exists p. split; [exact Hp|].
  unfold set_fan_speed. fold (valid_speed speed). rewrite Hr, Hs. simpl.
  rewrite Hg. simpl. destruct p as [pwm|]; simpl.
  - rewrite int_duty. unfold PWM_duty.
    assert (pwm_faulty pwm = false) as ->.
    { eapply (Forall_lookup_1 accepts_writes) in Hnf; [|exact Hp]. exact Hnf. }
    simpl. rewrite setitem_in_range by lia. simpl. reflexivity.
  - rewrite list_insert_id by exact Hp.
    now destruct st.
Qed.

Lemma accepts_writes_written d p : accepts_writes p -> accepts_writes (written d p).
Proof. now destruct p. Qed.

Lemma no_faulty_written st k d p :
  no_faulty st -> fan_pwms st !! k = Some p ->
  no_faulty (set_fan_pwms st (<[k := written d p]> (fan_pwms st))).
Proof.
  intros Hnf Hp. unfold no_faulty; simpl. apply Forall_insert; [exact Hnf|].
  apply accepts_writes_written. exact (Forall_lookup_1 _ _ _ _ Hnf Hp).
Qed.

(** Effect of the loop over channels [j .. j+n-1]: exactly these entries are
    rewritten, and the success counter grows by one per channel that has a
    PWM object. *)
Lemma set_all_loop_spec speed n :
  valid_speed speed = true ->
  forall st (j : nat) sc,
    wf st -> no_faulty st -> Z.of_nat (j + n) <= fan_count st ->
    exists pwms sc',
      set_all_loop st speed (Z.of_nat j) n sc = Ok (set_fan_pwms st pwms, sc') /\
      length pwms = length (fan_pwms st) /\
      (forall k, pwms !! k =
         if bool_decide (j <= k < j + n)%nat
         then written (duty_for speed) <$> fan_pwms st !! k
         else fan_pwms st !! k) /\
      sc <= sc' <= sc + Z.of_nat n /\
      (sc' = sc + Z.of_nat n <->
       forall k p, (j <= k < j + n)%nat -> fan_pwms st !! k = Some p -> is_Some p).
Proof.
  intros Hs. induction n as [|n IH]; intros st j sc Hwf Hnf Hle.
  - exists (fan_pwms st), sc. destruct st; simpl.
    split; [reflexivity|]. split; [reflexivity|]. split.
    + intros k. rewrite bool_decide_eq_false_2 by lia. reflexivity.
    + split; [lia|]. split; intros; lia.
  - assert (in_range (Z.of_nat j) (fan_count st) = true) as Hr
      by (apply in_range_spec; lia).
    destruct (set_fan_speed_valid st (Z.of_nat j) speed Hwf Hr Hs Hnf)
      as (p & Hp & Hset).
    rewrite Nat2Z.id in Hp, Hset.
    set (st1 := set_fan_pwms st (<[j := written (duty_for speed) p]> (fan_pwms st))) in *.
    assert (wf st1) as Hwf1 by (apply wf_set_fan_pwms; [exact Hwf | apply length_insert]).
    assert (no_faulty st1) as Hnf1 by (apply no_faulty_written; assumption).
    destruct (IH st1 (S j) (if bool_decide (is_Some p) then sc + 1 else sc) Hwf1 Hnf1)
      as (pwms & sc' & Hrun & Hlen & Hlk & Hbd & Hall).
    { simpl. lia. }
    exists pwms, sc'.
    assert (j < length (fan_pwms st))%nat as Hj by (apply lookup_lt_is_Some; eauto).
    split; [|split; [|split; [|split]]].
    + cbn [set_all_loop]. rewrite Hset. simpl.
      replace (Z.of_nat j + 1) with (Z.of_nat (S j)) by lia.
      rewrite Hrun. reflexivity.
    + rewrite Hlen. simpl. apply length_insert.
    + intros k. rewrite Hlk. simpl.
      destruct (decide (k = j)) as [->|Hne].
      * rewrite bool_decide_eq_false_2 by lia.
        rewrite bool_decide_eq_true_2 by lia.
        rewrite list_lookup_insert_eq by exact Hj. now rewrite Hp.
      * rewrite list_lookup_insert_ne by congruence.
        repeat case_bool_decide; (reflexivity || lia).
    + destruct (bool_decide (is_Some p)); lia.
    + split.
      * intros Hsc k q Hk Hq.
        assert (bool_decide (is_Some p) = true) as Hp1
          by (destruct (bool_decide (is_Some p)); [reflexivity | lia]).
        destruct (decide (k = j)) as [->|Hne].
        -- rewrite Hp in Hq. injection Hq as <-. now apply bool_decide_eq_true in Hp1.
        -- rewrite Hp1 in Hall. destruct Hall as [Hall _].
           eapply (Hall ltac:(lia) k); [lia|].
           simpl. now rewrite list_lookup_insert_ne by congruence.
      * intros Hk.
        assert (is_Some p) as Hsp by (eapply (Hk j); [lia | exact Hp]).
        rewrite bool_decide_eq_true_2 in Hall, Hbd by exact Hsp.
        destruct Hall as [_ Hall]. rewrite Hall; [lia|].
        intros k q Hkr Hq. cbn [st1 fan_pwms set_fan_pwms] in Hq.
        rewrite list_lookup_insert_ne in Hq by lia.
        eapply Hk; [|exact Hq]. lia.
Qed.

Lemma set_all_loop_whole st speed :
  valid_speed speed = true -> wf st -> no_faulty st ->
  exists sc,
    set_all_loop st speed 0 (Z.to_nat (fan_count st)) 0 =
      Ok (set_fan_pwms st (written (duty_for speed) <$> fan_pwms st), sc) /\
    (sc = fan_count st <-> Forall is_Some (fan_pwms st)).
Proof.
  intros Hs Hwf Hnf. pose proof Hwf as (H0 & Hlen & _).
  destruct (set_all_loop_spec speed (Z.to_nat (fan_count st)) Hs st 0%nat 0 Hwf Hnf)
    as (pwms & sc & Hrun & Hl & Hlk & _ & Hall); [lia|].
  assert (pwms = written (duty_for speed) <$> fan_pwms st) as ->.
  { apply list_eq. intros k. rewrite Hlk, list_lookup_fmap.
    case_bool_decide as Hk; [reflexivity|].
    rewrite (proj2 (lookup_ge_None (fan_pwms st) k)) by lia. reflexivity. }
  exists sc. split; [exact Hrun|].
  rewrite Z2Nat.id, Z.add_0_l in Hall by lia. rewrite Hall, Forall_lookup.
  split.
  - intros H k p Hp. apply (H k p); [|exact Hp].
    apply lookup_lt_Some in Hp. lia.
  - intros H k p _ Hp. exact (H k p Hp).
Qed.

Lemma set_all_loop_invalid speed n :
  valid_speed speed = false ->
  forall st i sc, set_all_loop st speed i n sc = Ok (st, sc).
Proof.
  intros Hs. induction n as [|n IH]; intros st i sc; [reflexivity|].
  cbn [set_all_loop]. rewrite set_fan_speed_invalid by (now right). simpl. apply IH.
Qed.

(** [emergency_stop] walks the channels exactly as [stop_all_fans] does and
    only drops the success counter. *)
Lemma emergency_loop_as_set_all n :
  forall st (j : nat) sc,
    Z.of_nat (j + n) <= fan_count st ->
    emergency_loop st (Z.of_nat j) n =
      (set_all_loop st 0 (Z.of_nat j) n sc ≫= fun r => Ok (fst r)).
Proof.
  induction n as [|n IH]; intros st j sc Hle; [reflexivity|].
  cbn [emergency_loop set_all_loop]. unfold set_fan_speed.
  assert (in_range (Z.of_nat j) (fan_count st) = true) as -> by (apply in_range_spec; lia).
  cbn [negb Z.leb Z.compare andb].
  replace (Z.of_nat j + 1) with (Z.of_nat (S j)) by lia.
  change (Py.int (inject_Z (0 * 1023) / 100)) with 0.
  destruct (Py.getitem (fan_pwms st) (Z.of_nat j)) as [[pwm|]|e];
    cbn [mbind result_bind]; [| apply IH; lia | reflexivity].
  destruct (PWM_duty pwm 0) as [pwm'|e]; cbn [mbind result_bind]; [|reflexivity].
  destruct (Py.setitem (fan_pwms st) (Z.of_nat j) (Some pwm')) as [pwms|e];
    cbn [mbind result_bind]; [|reflexivity].
  apply IH. cbn [fan_count set_fan_pwms]. lia.
Qed.

(** C1: the duty written for 50 percent is 511, one less than the rounded
    value 512 of [50 * 1023 / 100] that the conversion test of the repository
    expects; the write itself succeeds. *)
Theorem set_fan_speed_50_writes_511 :
  (exists st', set_fan_speed healthy_board 0 50 = Ok (st', true) /\
               duty_of st' 0 = Some 511) /\
  Py.round (inject_Z (50 * 1023) / 100) = 512.
Proof. split; [eexists; split|]; reflexivity. Qed.

(** C2, as stated, fails: with channel 3 unavailable among 8 channels, the
    call reports failure and yet has rewritten the other seven duties. *)
Lemma set_all_fans_speed_not_atomic :
  exists st',
    set_all_fans_speed bank_without_channel_3 50 = Ok (st', false) /\
    duties bank_without_channel_3 =
      [Some 0; Some 0; Some 0; None; Some 0; Some 0; Some 0; Some 0] /\
    duties st' =
      [Some 511; Some 511; Some 511; None; Some 511; Some 511; Some 511; Some 511].
Proof. eexists. repeat split. Qed.

(** C2, amended: [set_all_fans_speed] applies one percentage to every channel
    in turn through [set_fan_speed], with no validation pass before the first
    write.  Provided no PWM write raises, the call returns normally, touches
    nothing but the PWM objects, and leaves every channel's PWM entry as a
    single [set_fan_speed] call for that channel leaves it; it returns [True]
    exactly when each of these single calls returns [True].  A percentage
    outside [0, 100] therefore leaves the controller as it was and gives
    [False]; a valid one gives [True] exactly when every channel has a PWM
    object, the channels that have one being written all the same. *)
Theorem set_all_fans_speed_partial st speed :
  wf st -> 0 < fan_count st -> no_faulty st ->
  exists st' ok,
    set_all_fans_speed st speed = Ok (st', ok) /\
    st' = set_fan_pwms st (fan_pwms st') /\
    length (fan_pwms st') = length (fan_pwms st) /\
    (forall c, in_range c (fan_count st) = true ->
       exists stc okc,
         set_fan_speed st c speed = Ok (stc, okc) /\
         Py.getitem (fan_pwms st') c = Py.getitem (fan_pwms stc) c) /\
    (ok = true <->
     forall c, in_range c (fan_count st) = true ->
       exists stc, set_fan_speed st c speed = Ok (stc, true)) /\
    (valid_speed speed = false -> st' = st /\ ok = false) /\
    (valid_speed speed = true -> (ok = true <-> Forall is_Some (fan_pwms st))).
Proof.
  intros Hwf Hpos Hnf. pose proof Hwf as (_ & Hlen & _).
  unfold set_all_fans_speed.
  destruct (valid_speed speed) eqn:Hs.
  - destruct (set_all_loop_whole st speed Hs Hwf Hnf) as (sc & -> & Hall).
    eexists _, _. split; [reflexivity|].
    cbn [fan_count fan_pwms set_fan_pwms]. rewrite Z.eqb_eq, Hall.
    split; [reflexivity|]. split; [apply length_fmap|].
    split; [|split; [|split; [discriminate | reflexivity]]].
    + intros c Hc.
      destruct (set_fan_speed_valid st c speed Hwf Hc Hs Hnf) as (p & Hp & ->).
      eexists _, _. split; [reflexivity|]. cbn [fan_pwms set_fan_pwms].
      apply in_range_spec in Hc.
      assert (Z.to_nat c < length (fan_pwms st))%nat as Hk by lia.
      destruct (getitem_in_range (written (duty_for speed) <$> fan_pwms st) c)
        as (x & Hx & ->); [rewrite length_fmap; lia|].
      destruct (getitem_in_range
                  (<[Z.to_nat c := written (duty_for speed) p]> (fan_pwms st)) c)
        as (y & Hy & ->); [rewrite length_insert; lia|].
      rewrite list_lookup_fmap, Hp in Hx.
      rewrite list_lookup_insert_eq in Hy by exact Hk.
      simpl in Hx. congruence.
    + rewrite Forall_lookup. split.
      * intros Hsome c Hc.
        destruct (set_fan_speed_valid st c speed Hwf Hc Hs Hnf) as (p & Hp & ->).
        rewrite bool_decide_eq_true_2 by exact (Hsome _ _ Hp). eauto.
      * intros Hcalls k p Hp.
        assert (in_range (Z.of_nat k) (fan_count st) = true) as Hc.
        { apply in_range_spec. apply lookup_lt_Some in Hp. lia. }
        destruct (Hcalls _ Hc) as (stc & Hcall).
        destruct (set_fan_speed_valid st _ speed Hwf Hc Hs Hnf) as (q & Hq & Hset).
        rewrite Nat2Z.id, Hp in Hq. injection Hq as <-.
        rewrite Hset in Hcall. injection Hcall as _ Hb.
        now apply bool_decide_eq_true in Hb.
  - rewrite set_all_loop_invalid by exact Hs.
    eexists _, _. split; [reflexivity|].
    assert ((0 =? fan_count st) = false) as H0 by (apply Z.eqb_neq; lia).
    cbn [mbind result_bind]. rewrite H0.
    split; [now destruct st|]. split; [reflexivity|].
    split; [|split; [|split; [tauto | discriminate]]].
    + intros c Hc. rewrite set_fan_speed_invalid by (now right). eauto.
    + split; [discriminate|]. intros Hcalls.
      destruct (Hcalls 0) as (stc & Hcall); [apply in_range_spec; lia|].
      rewrite set_fan_speed_invalid in Hcall by (now right). discriminate.
Qed.

Lemma set_all_fans_speed_partial_witness :
  exists st' ok,
    set_all_fans_speed bank_without_channel_3 50 = Ok (st', ok) /\
    st' = set_fan_pwms bank_without_channel_3 (fan_pwms st') /\
    length (fan_pwms st') = length (fan_pwms bank_without_channel_3) /\
    (forall c, in_range c (fan_count bank_without_channel_3) = true ->
       exists stc okc,
         set_fan_speed bank_without_channel_3 c 50 = Ok (stc, okc) /\
         Py.getitem (fan_pwms st') c = Py.getitem (fan_pwms stc) c) /\
    (ok = true <->
     forall c, in_range c (fan_count bank_without_channel_3) = true ->
       exists stc, set_fan_speed bank_without_channel_3 c 50 = Ok (stc, true)) /\
    (valid_speed 50 = false -> st' = bank_without_channel_3 /\ ok = false) /\
    (valid_speed 50 = true ->
     (ok = true <-> Forall is_Some (fan_pwms bank_without_channel_3))).
Proof.
  apply (set_all_fans_speed_partial bank_without_channel_3 50).
  - apply FanController_init_wf.
  - reflexivity.
  - repeat constructor.
Defined.

(** ** Emergency stop *)




(** ** Frequency measurement *)

Lemma getitem_default {A} (d : A) (l : list A) i :
  0 <= i < Z.of_nat (length l) -> Py.getitem l i = Ok (default d (l !! Z.to_nat i)).
Proof.
  intros Hi. destruct (getitem_in_range l i Hi) as (x & Hx & ->). now rewrite Hx.
Qed.

Lemma Qeq_bool_inject_pos dt : 0 < dt -> Qeq_bool (inject_Z dt) 0 = false.
Proof.
  intros Hdt. destruct (Qeq_bool (inject_Z dt) 0) eqn:E; [|reflexivity].
  apply Qeq_bool_eq in E. unfold Qeq in E. simpl in E. lia.
Qed.

Lemma measure_compute_spec st fan_id now :
  wf st -> in_range fan_id (fan_count st) = true ->
  measure_compute st fan_id now =
    Ok (set_fg_frequencies st
          (<[Z.to_nat fan_id := frequency_value st fan_id now]> (fg_frequencies st))).
Proof.
  intros (H0 & Hp & Hc & Hl & Hf & Hg) Hr. apply in_range_spec in Hr.
  unfold measure_compute, frequency_value, window_open.
  rewrite (getitem_default 0 (fg_last_time st)) by lia. cbn [mbind result_bind].
  fold (last_time_of st fan_id).
  destruct (0 <? last_time_of st fan_id); cbn [andb];
    [|now rewrite setitem_in_range by lia].
  destruct (0 <? ticks_diff now (last_time_of st fan_id)) eqn:Hdt;
    [|now rewrite setitem_in_range by lia].
  rewrite (getitem_default 0 (fg_counters st)) by lia. cbn [mbind result_bind].
  fold (counter_of st fan_id). unfold Py.truediv.
  rewrite Qeq_bool_inject_pos by (now apply Z.ltb_lt). cbn [mbind result_bind].
  now rewrite setitem_in_range by lia.
Qed.

Lemma measure_reset_spec st fan_id now :
  wf st -> in_range fan_id (fan_count st) = true ->
  measure_reset st fan_id now =
    Ok (set_fg_last_time
          (set_fg_counters st (<[Z.to_nat fan_id := 0]> (fg_counters st)))
          (<[Z.to_nat fan_id := now]> (fg_last_time st)),
        frequency_of st fan_id).
Proof.
  intros (H0 & Hp & Hc & Hl & Hf & Hg) Hr. apply in_range_spec in Hr.
  unfold measure_reset.
  rewrite setitem_in_range by lia. cbn [mbind result_bind fg_last_time set_fg_counters].
  rewrite setitem_in_range by lia.
  cbn [mbind result_bind fg_frequencies set_fg_counters set_fg_last_time].
  rewrite (getitem_default 0%Q) by lia. reflexivity.
Qed.

Lemma frequency_of_stored st fan_id f :
  wf st -> in_range fan_id (fan_count st) = true ->
  frequency_of (set_fg_frequencies st (<[Z.to_nat fan_id := f]> (fg_frequencies st)))
    fan_id = f.
Proof.
  intros (H0 & Hp & Hc & Hl & Hf & Hg) Hr. apply in_range_spec in Hr.
  unfold frequency_of. cbn [fg_frequencies set_fg_frequencies].
  now rewrite list_lookup_insert_eq by lia.
Qed.

(** The measurement is total on a well-formed controller, and this is its
    result. *)
Lemma _measure_frequency_spec st fan_id now :
  wf st -> in_range fan_id (fan_count st) = true ->
  _measure_frequency st fan_id now =
    Ok (measured st fan_id now, frequency_value st fan_id now).
Proof.
  intros Hwf Hr. unfold _measure_frequency. rewrite Hr. cbn [negb].
  rewrite measure_compute_spec by assumption. cbn [mbind result_bind].
  rewrite measure_reset_spec;
    [| apply wf_set_fg_frequencies; [assumption | apply length_insert] | assumption].
  rewrite frequency_of_stored by assumption. reflexivity.
Qed.

Lemma measured_wf st fan_id now : wf st -> wf (measured st fan_id now).
Proof.
  unfold wf, measured. cbn [fan_count fan_pwms fg_counters fg_last_time fg_frequencies fg_pins_list].
  now rewrite !length_insert.
Qed.

Lemma frequency_value_closed st fan_id now :
  last_time_of st fan_id <= 0 \/ ticks_diff now (last_time_of st fan_id) <= 0 ->
  frequency_value st fan_id now = 0%Q.
Proof.
  intros H. unfold frequency_value, window_open.
  destruct H as [H|H]; apply Z.ltb_ge in H; rewrite H; [reflexivity|].
  now rewrite andb_false_r.
Qed.

Lemma read_fan_fg_frequency_cases st fan_id now :
  wf st -> in_range fan_id (fan_count st) = true ->
  (Py.getitem (fg_pins_list st) fan_id = Ok None /\
   read_fan_fg_frequency st fan_id now = Ok (st, 0%Q)) \/
  ((exists pin, Py.getitem (fg_pins_list st) fan_id = Ok (Some pin)) /\
   read_fan_fg_frequency st fan_id now =
     Ok (measured st fan_id now, frequency_value st fan_id now)).
Proof.
  intros Hwf Hr. pose proof Hwf as (H0 & Hp & Hc & Hl & Hf & Hg).
  pose proof Hr as Hr'. apply in_range_spec in Hr'.
  unfold read_fan_fg_frequency. rewrite Hr. cbn [negb].
  destruct (getitem_in_range (fg_pins_list st) fan_id) as ([pin|] & _ & Hget); [lia| |];
    rewrite Hget; cbn [mbind result_bind].
  - right. split; [eauto|]. now apply _measure_frequency_spec.
  - left. split; reflexivity.
Qed.

Lemma read_fan_rpm_zero st st' fan_id now ppr :
  read_fan_fg_frequency st fan_id now = Ok (st', 0%Q) ->
  read_fan_rpm st fan_id now ppr = Ok (st', 0%Q).
Proof. intros H. unfold read_fan_rpm. rewrite H. reflexivity. Qed.

Ltac wf_by_computation := repeat split; vm_compute; congruence.

(** C4: on the first sample of a channel (no earlier timestamp) and whenever
    the elapsed time is not positive, the measurement and the two readers
    built on it return 0 and raise nothing, whatever the divisor
    [pulses_per_revolution] is. *)
Theorem measurement_zero_without_window st fan_id now ppr :
  wf st -> in_range fan_id (fan_count st) = true ->
  last_time_of st fan_id <= 0 \/ ticks_diff now (last_time_of st fan_id) <= 0 ->
  (exists st1, _measure_frequency st fan_id now = Ok (st1, 0%Q)) /\
  (exists st2, read_fan_fg_frequency st fan_id now = Ok (st2, 0%Q)) /\
  (exists st3, read_fan_rpm st fan_id now ppr = Ok (st3, 0%Q)).
Proof.
  intros Hwf Hr Hclosed.
  pose proof (frequency_value_closed st fan_id now Hclosed) as Hz.
  assert (exists st2, read_fan_fg_frequency st fan_id now = Ok (st2, 0%Q)) as (st2 & H2).
  { destruct (read_fan_fg_frequency_cases st fan_id now Hwf Hr) as [[_ H]|[_ H]];
      rewrite H; [eauto|]. rewrite Hz. eauto. }
  split; [|split].
  - rewrite _measure_frequency_spec, Hz by assumption. eauto.
  - eauto.
  - exists st2. now apply read_fan_rpm_zero.
Qed.

Lemma measurement_zero_without_window_witness :
  (* first sample of channel 0 *)
  ((exists st1, _measure_frequency healthy_board 0 1000 = Ok (st1, 0%Q)) /\
   (exists st2, read_fan_fg_frequency healthy_board 0 1000 = Ok (st2, 0%Q)) /\
   (exists st3, read_fan_rpm healthy_board 0 1000 0 = Ok (st3, 0%Q))) /\
  (* 100 edges counted, second sample at the very same tick *)
  ((exists st1, _measure_frequency (board_with_edges 100) 0 1000 = Ok (st1, 0%Q)) /\
   (exists st2, read_fan_fg_frequency (board_with_edges 100) 0 1000 = Ok (st2, 0%Q)) /\
   (exists st3, read_fan_rpm (board_with_edges 100) 0 1000 2 = Ok (st3, 0%Q))).
Proof.
  split.
  - apply (measurement_zero_without_window healthy_board 0 1000 0);
      [wf_by_computation | reflexivity | left; vm_compute; congruence].
  - apply (measurement_zero_without_window (board_with_edges 100) 0 1000 2);
      [wf_by_computation | reflexivity | right; vm_compute; congruence].
Defined.

(** C9: a measurement of a valid channel always ends with the channel's
    counter at 0 and its timestamp at the current time, in every branch. *)
Theorem measure_frequency_resets st fan_id now :
  wf st -> in_range fan_id (fan_count st) = true ->
  exists st' f,
    _measure_frequency st fan_id now = Ok (st', f) /\
    Py.getitem (fg_counters st') fan_id = Ok 0 /\
    Py.getitem (fg_last_time st') fan_id = Ok now.
Proof.
  intros Hwf Hr. pose proof Hwf as (H0 & Hp & Hc & Hl & Hf & Hg).
  pose proof Hr as Hr'. apply in_range_spec in Hr'.
  eexists _, _. split; [now apply _measure_frequency_spec|].
  unfold measured. cbn [fg_counters fg_last_time].
  split.
  - rewrite (getitem_default 0) by (rewrite length_insert; lia).
    now rewrite list_lookup_insert_eq by lia.
  - rewrite (getitem_default 0) by (rewrite length_insert; lia).
    now rewrite list_lookup_insert_eq by lia.
Qed.

Lemma measure_frequency_resets_witness :
  exists st' f,
    _measure_frequency (board_with_edges 100) 0 2000 = Ok (st', f) /\
    Py.getitem (fg_counters st') 0 = Ok 0 /\
    Py.getitem (fg_last_time st') 0 = Ok 2000.
Proof.
  apply (measure_frequency_resets (board_with_edges 100) 0 2000);
    [wf_by_computation | reflexivity].
Defined.

(** For a channel id outside [0, N), and for a channel whose entry in
    [fg_pins_list] is [None], both readers return 0, raise nothing and hand
    back the controller unchanged. *)
Lemma read_without_feedback_is_zero st fan_id now ppr :
  in_range fan_id (fan_count st) = false \/
  Py.getitem (fg_pins_list st) fan_id = Ok None ->
  read_fan_fg_frequency st fan_id now = Ok (st, 0%Q) /\
  read_fan_rpm st fan_id now ppr = Ok (st, 0%Q).
Proof.
  intros H.
  assert (read_fan_fg_frequency st fan_id now = Ok (st, 0%Q)) as Hf.
  { unfold read_fan_fg_frequency.
    destruct (in_range fan_id (fan_count st)); cbn [negb]; [|reflexivity].
    destruct H as [H|H]; [discriminate|]. now rewrite H. }
  split; [exact Hf | now apply read_fan_rpm_zero].
Qed.

(** C10 fails for a channel whose feedback pin failed to initialize in its
    [irq()] call.  The constructor has appended the pin object before the
    call, and the handler of the exception appends [None] behind it: on a
    board where [irq()] raises for channel 1, entry 1 of [fg_pins_list] holds
    the pin and the [None] sits at entry 2.  A read of channel 1 is therefore
    not refused: both readers return 0, but they run the measurement, which
    moves the timestamp of the channel from 0 to the current tick.  The read
    that is refused and changes nothing is the one of channel 2, whose pin
    and handler were set up without error. *)
Theorem irq_failed_channel_is_measured :
  let st := board_irq_raises_1 in
  take 4 (fg_pins_list st) = [Some 19; Some 18; None; Some 5] /\
  fg_last_time st = [0; 0; 0; 0; 0; 0; 0; 0] /\
  (exists st',
     read_fan_fg_frequency st 1 1000 = Ok (st', 0%Q) /\
     read_fan_rpm st 1 1000 2 = Ok (st', 0%Q) /\
     fg_last_time st' = [0; 1000; 0; 0; 0; 0; 0; 0] /\
     st' <> st) /\
  read_fan_fg_frequency st 2 1000 = Ok (st, 0%Q).
Proof.
  cbv zeta. split; [reflexivity|]. split; [reflexivity|]. split; [|reflexivity].
  eexists. split; [reflexivity|]. split; [reflexivity|]. split; [reflexivity|].
  intros H. apply (f_equal fg_last_time) in H. vm_compute in H. discriminate.
Qed.


(** C5, as stated, fails: no count is clamped.  With a counter holding -10
    after a first sample at tick 1000, the measurement at tick 2000 returns
    the frequency -5 Hz; [read_fan_rpm] on the same controller returns 0 only
    because it maps every non-positive frequency to 0. *)
Lemma negative_count_gives_negative_frequency :
  exists st1 st2 st3 f,
    read_fan_fg_frequency healthy_board 0 1000 = Ok (st1, 0%Q) /\
    read_fan_fg_frequency (poke_counter st1 0 (-10)) 0 2000 = Ok (st2, f) /\
    (f == -5)%Q /\ (f < 0)%Q /\
    read_fan_rpm (poke_counter st1 0 (-10)) 0 2000 2 = Ok (st3, 0%Q).
Proof.
  eexists _, _, _, _.
  split; [reflexivity|]. split; [reflexivity|]. repeat split.
Qed.

(** An edge adds one to the counter of its channel and touches nothing else. *)
Lemma irq_counter st c :
  wf st ->
  exists st',
    irq st c = Ok st' /\ wf st' /\
    fan_count st' = fan_count st /\
    fg_last_time st' = fg_last_time st /\
    fg_frequencies st' = fg_frequencies st /\
    forall fan_id, in_range fan_id (fan_count st) = true ->
      counter_of st' fan_id = counter_of st fan_id + (if c =? fan_id then 1 else 0).
Proof.
  intros Hwf. pose proof Hwf as (H0 & Hp & Hc & Hl & Hf & Hg).
  unfold irq.
  destruct (in_range c (fan_count st)) eqn:Hcr.
  - apply in_range_spec in Hcr. unfold handler.
    rewrite (getitem_default 0) by lia. cbn [mbind result_bind].
    rewrite setitem_in_range by lia. cbn [mbind result_bind].
    eexists. split; [reflexivity|].
    split; [apply wf_set_fg_counters; [assumption | apply length_insert]|].
    repeat (split; [reflexivity|]).
    intros fan_id Hr. apply in_range_spec in Hr.
    unfold counter_of. cbn [fg_counters set_fg_counters].
    destruct (Z.eqb_spec c fan_id) as [->|Hne].
    + now rewrite list_lookup_insert_eq by lia.
    + rewrite list_lookup_insert_ne by lia. lia.
  - exists st. repeat (split; [assumption || reflexivity|]).
    intros fan_id Hr.
    destruct (Z.eqb_spec c fan_id) as [->|Hne]; [congruence | lia].
Qed.

Lemma deliver_counter cs :
  forall st, wf st ->
  exists st',
    deliver st cs = Ok st' /\ wf st' /\
    fan_count st' = fan_count st /\
    fg_last_time st' = fg_last_time st /\
    fg_frequencies st' = fg_frequencies st /\
    forall fan_id, in_range fan_id (fan_count st) = true ->
      counter_of st' fan_id = counter_of st fan_id + occurrences fan_id cs.
Proof.
  induction cs as [|c cs IH]; intros st Hwf.
  - exists st. repeat (split; [assumption || reflexivity|]). intros; simpl; lia.
  - destruct (irq_counter st c Hwf) as (st1 & Hirq & Hwf1 & Hn1 & Hl1 & Hf1 & Hc1).
    destruct (IH st1 Hwf1) as (st2 & Hd & Hwf2 & Hn2 & Hl2 & Hf2 & Hc2).
    exists st2. cbn [deliver]. rewrite Hirq. cbn [mbind result_bind].
    split; [exact Hd|]. split; [exact Hwf2|].
    split; [congruence|]. split; [congruence|]. split; [congruence|].
    intros fan_id Hr. rewrite Hc2 by congruence. rewrite Hc1 by exact Hr.
    cbn [occurrences]. lia.
Qed.

(** ** Frequency and speed formulas *)


Lemma Qgt_bool_true a b : Qgt_bool a b = true <-> (b < a)%Q.
Proof.
  unfold Qgt_bool. rewrite negb_true_iff.
  split.
  - intros H. apply Qnot_le_lt. intros Hle. apply Qle_bool_iff in Hle. congruence.
  - intros H. destruct (Qle_bool a b) eqn:E; [|reflexivity].
    apply Qle_bool_iff in E. exfalso. exact (Qlt_not_le _ _ H E).
Qed.

Lemma Qgt_bool_false a b : Qgt_bool a b = false <-> (a <= b)%Q.
Proof.
  unfold Qgt_bool. rewrite negb_false_iff. apply Qle_bool_iff.
Qed.





(** ** Edges against measurements *)

Lemma _measure_frequency_irq_nil st fan_id now :
  _measure_frequency_irq st fan_id now [] = _measure_frequency st fan_id now.
Proof.
  unfold _measure_frequency_irq, _measure_frequency.
  destruct (in_range fan_id (fan_count st)); cbn [negb deliver mbind result_bind];
    [|reflexivity].
  now destruct (measure_compute st fan_id now).
Qed.

Lemma _measure_frequency_irq_spec st fan_id now irqs :
  wf st ->
  exists st' f,
    _measure_frequency_irq st fan_id now irqs = Ok (st', f) /\
    wf st' /\ fan_count st' = fan_count st /\
    (in_range fan_id (fan_count st) = true -> f = frequency_value st fan_id now) /\
    forall c, in_range c (fan_count st) = true ->
      counter_of st' c =
        (if fan_id =? c then 0 else counter_of st c + occurrences c irqs) /\
      last_time_of st' c = (if fan_id =? c then now else last_time_of st c).
Proof.
  intros Hwf. unfold _measure_frequency_irq.
  destruct (in_range fan_id (fan_count st)) eqn:Hr; cbn [negb].
  - rewrite measure_compute_spec by assumption. cbn [mbind result_bind].
    set (st1 := set_fg_frequencies st _).
    assert (wf st1) as Hwf1
      by (apply wf_set_fg_frequencies; [assumption | apply length_insert]).
    destruct (deliver_counter irqs st1 Hwf1) as (st2 & Hd & Hwf2 & Hn2 & Hl2 & Hf2 & Hc2).
    rewrite Hd. cbn [mbind result_bind].
    rewrite measure_reset_spec by (assumption || (rewrite Hn2; exact Hr)).
    eexists _, _. split; [reflexivity|].
    pose proof Hwf2 as (H0 & Hp & Hc & Hl & Hf & Hg).
    split.
    { apply wf_set_fg_last_time; [|apply length_insert].
      apply wf_set_fg_counters; [assumption | apply length_insert]. }
    split; [exact Hn2|].
    split.
    { intros _. unfold frequency_of. rewrite Hf2.
      apply (frequency_of_stored st fan_id _ Hwf Hr). }
    intros c Hcr. specialize (Hc2 c Hcr).
    pose proof Hr as Hr'. apply in_range_spec in Hr'.
    pose proof Hcr as Hcr'. apply in_range_spec in Hcr'.
    change (fan_count st1) with (fan_count st) in *.
    unfold counter_of, last_time_of in *.
    cbn [fg_counters fg_last_time set_fg_counters set_fg_last_time].
    destruct (Z.eqb_spec fan_id c) as [->|Hne].
    + rewrite !list_lookup_insert_eq by lia. split; reflexivity.
    + rewrite !list_lookup_insert_ne by lia. rewrite Hl2. split; [exact Hc2 | reflexivity].
  - destruct (deliver_counter irqs st Hwf) as (st2 & Hd & Hwf2 & Hn2 & Hl2 & Hf2 & Hc2).
    rewrite Hd. cbn [mbind result_bind].
    eexists _, _. split; [reflexivity|]. split; [exact Hwf2|]. split; [exact Hn2|].
    split; [discriminate|].
    intros c Hcr.
    destruct (Z.eqb_spec fan_id c) as [->|Hne]; [congruence|].
    split; [now apply Hc2|]. unfold last_time_of. now rewrite Hl2.
Qed.

Lemma round_inject_Z n : Py.round (inject_Z n) = n.
Proof.
  unfold Py.round. rewrite Qfloor_Z.
  assert ((inject_Z n - inject_Z n ?= 1 # 2)%Q = Lt) as ->; [|reflexivity].
  apply (proj1 (Qlt_alt _ _)). lra.
Qed.

Lemma round_comp q q' : (q == q')%Q -> Py.round q = Py.round q'.
Proof.
  intros H. unfold Py.round. rewrite (Qfloor_comp _ _ H).
  assert ((q - inject_Z (Qfloor q') ?= 1 # 2)%Q = (q' - inject_Z (Qfloor q') ?= 1 # 2)%Q)
    as ->; [|reflexivity].
  apply Qcompare_comp; [now rewrite H | reflexivity].
Qed.

(** The frequency a measurement returns reports the count the measurement
    read: over an open window of [dt] milliseconds [hz * dt = count * 500],
    and with no window the frequency is 0. *)
Lemma edges_of_frequency_value st fan_id now :
  edges_of_frequency (frequency_value st fan_id now)
    (ticks_diff now (last_time_of st fan_id)) =
  if window_open st fan_id now then counter_of st fan_id else 0.
Proof.
  unfold edges_of_frequency, frequency_value.
  destruct (window_open st fan_id now) eqn:Hopen.
  - unfold window_open in Hopen. apply andb_true_iff in Hopen as [_ Hdt].
    apply Z.ltb_lt in Hdt.
    rewrite <- (round_inject_Z (counter_of st fan_id)) at 2.
    apply round_comp. field.
    intros H. unfold Qeq in H. simpl in H. lia.
  - rewrite <- round_inject_Z. apply round_comp. unfold Qdiv. ring.
Qed.

(** Every edge of channel [c] is accounted for once: reported by a
    measurement, zeroed without being reported, or still in the counter. *)
Lemma run_accounting c evs :
  forall st, wf st -> in_range c (fan_count st) = true ->
  exists t,
    run c st evs = Ok t /\
    observed t + lost t + counter_of (final t) c = counter_of st c + delivered c evs /\
    (clean_trace c (last_time_of st c) evs -> lost t = 0).
Proof.
  induction evs as [|[e|fan_id now irqs] evs IH]; intros st Hwf Hc.
  - eexists. split; [reflexivity|]. cbn [observed lost final delivered]. split; lia.
  - destruct (irq_counter st e Hwf) as (st1 & Hirq & Hwf1 & Hn1 & Hl1 & _ & Hc1).
    destruct (IH st1 Hwf1) as (t & Hrun & Hsum & Hclean); [congruence|].
    exists t. cbn [run]. rewrite Hirq. cbn [mbind result_bind].
    split; [exact Hrun|]. rewrite Hc1 in Hsum by exact Hc.
    split; [cbn [delivered]; lia|].
    cbn [clean_trace]. unfold last_time_of in *. rewrite Hl1 in Hclean. exact Hclean.
  - destruct (_measure_frequency_irq_spec st fan_id now irqs Hwf)
      as (st1 & f & Hm & Hwf1 & Hn1 & Hf & Hst1).
    destruct (Hst1 c Hc) as (Hcnt & Hlast).
    destruct (IH st1 Hwf1) as (t & Hrun & Hsum & Hclean); [congruence|].
    cbn [run]. rewrite Hm. cbn [mbind result_bind]. rewrite Hrun.
    cbn [mbind result_bind clean_trace delivered].
    rewrite Hlast in Hclean. rewrite Hcnt in Hsum.
    revert Hsum Hclean Hf.
    destruct (Z.eqb_spec fan_id c) as [->|Hne]; intros Hsum Hclean Hf.
    + eexists. split; [reflexivity|]. cbn [observed lost final].
      split; [lia|].
      intros (Hl & Hd & Hocc & Hrest).
      rewrite (Hf Hc), edges_of_frequency_value. unfold window_open.
      apply Z.ltb_lt in Hl as ->. apply Z.ltb_lt in Hd as ->. cbn [andb].
      rewrite (Hclean Hrest). lia.
    + exists t. split; [reflexivity|]. split; [lia | exact Hclean].
Qed.

(** C3, as stated, fails: the measurement is not indivisible.  Two edges are
    delivered on channel 0, the second one while the measurement at tick 2000
    sits between its read of the counter and the reset; the frequencies the
    measurements return report one edge in total, the counter ends at 0, and
    one edge is gone. *)
Lemma edge_lost_inside_measurement :
  exists t,
    run 0 healthy_board
      [Measure 0 1000 []; Edge 0; Measure 0 2000 [0]; Measure 0 3000 []] = Ok t /\
    delivered 0 [Measure 0 1000 []; Edge 0; Measure 0 2000 [0]; Measure 0 3000 []] = 2 /\
    observed t = 1 /\ lost t = 1 /\ counter_of (final t) 0 = 0.
Proof. eexists. repeat split. Qed.

(** C3, amended: as long as no edge of the channel arrives between the read
    and the reset of one of its measurements, and every measurement of the
    channel finds an earlier timestamp and a positive elapsed time, the counts
    reported by the frequencies the measurements return ([hz * elapsed ms /
    500] each) plus the count still in the counter equal the initial count
    plus the edges delivered. *)
Theorem edges_conserved_on_clean_trace c st evs :
  wf st -> in_range c (fan_count st) = true ->
  clean_trace c (last_time_of st c) evs ->
  exists t,
    run c st evs = Ok t /\
    observed t + counter_of (final t) c = counter_of st c + delivered c evs.
Proof.
  intros Hwf Hc Hclean.
  destruct (run_accounting c evs st Hwf Hc) as (t & Hrun & Hsum & Hlost).
  exists t. split; [exact Hrun|]. rewrite (Hlost Hclean) in Hsum. lia.
Qed.

Lemma edges_conserved_on_clean_trace_witness :
  exists t,
    run 0 (board_with_edges 3)
      [Edge 0; Measure 0 2000 []; Edge 0; Edge 1; Edge 0; Measure 0 3000 [1]; Edge 0] = Ok t /\
    observed t + counter_of (final t) 0 =
      counter_of (board_with_edges 3) 0 +
      delivered 0 [Edge 0; Measure 0 2000 []; Edge 0; Edge 1; Edge 0; Measure 0 3000 [1]; Edge 0].
Proof.
  apply (edges_conserved_on_clean_trace 0 (board_with_edges 3)).
  - wf_by_computation.
  - reflexivity.
  - vm_compute. repeat split; congruence.
Defined.

(** ** Waiting for a stable speed *)

Lemma read_fan_rpm_total st fan_id now :
  wf st -> exists st' rpm, read_fan_rpm st fan_id now 2 = Ok (st', rpm) /\ wf st'.
Proof.
  intros Hwf. unfold read_fan_rpm.
  assert (exists st' f, read_fan_fg_frequency st fan_id now = Ok (st', f) /\ wf st')
    as (st' & f & Hread & Hwf').
  { destruct (in_range fan_id (fan_count st)) eqn:Hr.
    - destruct (read_fan_fg_frequency_cases st fan_id now Hwf Hr) as [[_ H]|[_ H]];
        rewrite H; eexists _, _; (split; [reflexivity|]);
        [assumption | now apply measured_wf].
    - exists st, 0%Q. split; [|assumption].
      unfold read_fan_fg_frequency. now rewrite Hr. }
  rewrite Hread. cbn [mbind result_bind].
  destruct (Qgt_bool f 0); eexists _, _; (split; [reflexivity | assumption]).
Qed.

Lemma reached_guard timeout elapsed :
  Monitor.reached timeout elapsed = negb (elapsed <? timeout * 1000).
Proof. unfold Monitor.reached. apply Z.leb_antisym. Qed.

(** The polling loop never raises on a well-formed controller, and its
    verdict and counters are those of the monitor whose deadline test is
    "the elapsed time has reached the timeout", run on the logged samples. *)
Lemma wait_loop_monitor fan_id target_rpm timeout tolerance start_time world :
  forall st stable_count, wf st ->
  exists st' v log,
    wait_loop st fan_id target_rpm timeout tolerance start_time stable_count world
      = Ok (st', v, log) /\
    wf st' /\
    map fst (samples log) =
      map (fun w => ticks_diff (t_check w) start_time) (take (length log) world) /\
    map snd (Monitor.trace (Monitor.reached timeout) target_rpm tolerance
               required_stable_count (Sampling, stable_count) (samples log))
      = stable_counts log /\
    fst (Monitor.run (Monitor.reached timeout) target_rpm tolerance
           required_stable_count (Sampling, stable_count) (samples log)) = v.
Proof.
  induction world as [|w world IH]; intros st sc Hwf.
  - exists st, Sampling, []. split; [reflexivity|]. split; [exact Hwf|]. repeat split.
  - cbn [wait_loop].
    destruct (deliver_counter (edges w) st Hwf) as (st0 & Hd & Hwf0 & _).
    destruct (read_fan_rpm_total st0 fan_id (t_meas w) Hwf0) as (st1 & rpm & Hrpm & Hwf1).
    rewrite Hd. cbn [mbind result_bind]. rewrite Hrpm. cbn [mbind result_bind].
    set (elapsed := ticks_diff (t_check w) start_time).
    pose proof (reached_guard timeout elapsed) as Hg.
    destruct (elapsed <? timeout * 1000) eqn:Hlt; cbn [negb] in Hg.
    + change (Qle_bool (Py.abs (rpm - target_rpm)) tolerance)
        with (Monitor.hit target_rpm tolerance rpm).
      destruct (Monitor.hit target_rpm tolerance rpm) eqn:Hhit.
      * destruct (required_stable_count <=? sc + 1) eqn:Hreq.
        -- exists st1, Stable, [(elapsed, rpm, sc + 1)].
           split; [reflexivity|]. split; [exact Hwf1|]. split; [reflexivity|].
           unfold Monitor.run, samples, stable_counts.
           cbn [map fst snd Monitor.trace fold_left Monitor.poll].
           rewrite Hg, Hhit, Hreq. split; reflexivity.
        -- destruct (IH st1 (sc + 1) Hwf1) as (st2 & v & log & Hrun & Hwf2 & Hel & Htr & Hv).
           rewrite Hrun. cbn [mbind result_bind].
           exists st2, v, ((elapsed, rpm, sc + 1) :: log).
           split; [reflexivity|]. split; [exact Hwf2|].
           unfold Monitor.run, samples, stable_counts in *.
           cbn [map fst snd Monitor.trace fold_left Monitor.poll
                length take] in *.
           rewrite Hg, Hhit, Hreq. cbn [map snd].
           split; [now rewrite Hel|]. split; [now rewrite Htr | exact Hv].
      * destruct (IH st1 0 Hwf1) as (st2 & v & log & Hrun & Hwf2 & Hel & Htr & Hv).
        rewrite Hrun. cbn [mbind result_bind].
        exists st2, v, ((elapsed, rpm, 0) :: log).
        split; [reflexivity|]. split; [exact Hwf2|].
        unfold Monitor.run, samples, stable_counts in *.
        cbn [map fst snd Monitor.trace fold_left Monitor.poll
             length take] in *.
        rewrite Hg, Hhit. cbn [map snd].
        split; [now rewrite Hel|]. split; [now rewrite Htr | exact Hv].
    + exists st1, TimedOut, [(elapsed, rpm, sc)].
      split; [reflexivity|]. split; [exact Hwf1|]. split; [reflexivity|].
      unfold Monitor.run, samples, stable_counts.
      cbn [map fst snd Monitor.trace fold_left Monitor.poll].
      rewrite Hg. split; reflexivity.
Qed.

Lemma verdict_shape_cons timeout v log turns x :
  turn_continues timeout x ->
  verdict_shape timeout v log turns ->
  verdict_shape timeout v (x :: log) (S turns).
Proof.
  intros Hx. destruct v; cbn [verdict_shape].
  - intros (log' & e & rpm & -> & He & Hall).
    exists (x :: log'), e, rpm. repeat split; trivial. now constructor.
  - intros (log' & e & rpm & c & -> & He & Hc & Hall).
    exists (x :: log'), e, rpm, c. repeat split; trivial. now constructor.
  - intros (Hall & Hlen). split; [now constructor | simpl; lia].
Qed.

Lemma wait_loop_verdict fan_id target_rpm timeout tolerance start_time world :
  forall st stable_count st' v log,
    stable_count < required_stable_count ->
    wait_loop st fan_id target_rpm timeout tolerance start_time stable_count world
      = Ok (st', v, log) ->
    verdict_shape timeout v log (length world).
Proof.
  induction world as [|w world IH]; intros st sc st' v log Hsc Hrun.
  - injection Hrun as _ <- <-. split; [constructor | reflexivity].
  - cbn [wait_loop] in Hrun.
    destruct (deliver st (edges w)) as [st0|]; [|destruct (_ <? _); discriminate].
    cbn [mbind result_bind] in Hrun.
    destruct (read_fan_rpm st0 fan_id (t_meas w) 2) as [[st1 rpm]|];
      [|destruct (_ <? _); discriminate].
    cbn [mbind result_bind] in Hrun.
    set (elapsed := ticks_diff (t_check w) start_time) in *.
    destruct (Z.ltb_spec elapsed (timeout * 1000)) as [Hlt|Hge].
    + destruct (Qle_bool _ _).
      * destruct (Z.leb_spec required_stable_count (sc + 1)) as [Hreq|Hreq].
        -- injection Hrun as _ <- <-.
           exists [], elapsed, rpm. replace (sc + 1) with required_stable_count by lia.
           repeat split; [exact Hlt | constructor].
        -- destruct (wait_loop st1 _ _ _ _ _ (sc + 1) world) as [[[st2 v2] log2]|] eqn:Hrec;
             [|discriminate].
           injection Hrun as _ <- <-.
           apply verdict_shape_cons; [split; [exact Hlt | exact Hreq]|].
           exact (IH _ _ _ _ _ Hreq Hrec).
      * destruct (wait_loop st1 _ _ _ _ _ 0 world) as [[[st2 v2] log2]|] eqn:Hrec;
          [|discriminate].
        injection Hrun as _ <- <-.
        apply verdict_shape_cons; [split; [exact Hlt | reflexivity]|].
        refine (IH _ 0 _ _ _ _ Hrec). reflexivity.
    + injection Hrun as _ <- <-.
      exists [], elapsed, rpm, sc. repeat split; [exact Hge | exact Hsc | constructor].
Qed.

(** One step of the monitor from a sampling state, case by case. *)
Lemma poll_sampling expired target_rpm tolerance required hits e rpm :
  Monitor.poll expired target_rpm tolerance required (Sampling, hits) (e, rpm) =
    if expired e then (TimedOut, hits)
    else if Monitor.hit target_rpm tolerance rpm then
      (if required <=? hits + 1 then Stable else Sampling, hits + 1)
    else (Sampling, 0).
Proof.
  unfold Monitor.poll. cbn [fst snd].
  destruct (expired e); [reflexivity|].
  destruct (Monitor.hit target_rpm tolerance rpm); [|reflexivity].
  now destruct (required <=? hits + 1).
Qed.

(** C7, as stated, fails at the deadline: with a timeout of 10 s and a loop
    condition evaluated at exactly 10000 ms, the elapsed time does not exceed
    the timeout, the monitor that times out on "exceeds" keeps sampling, and
    the code returns [False]. *)
Lemma wait_times_out_at_the_deadline :
  exists st' log,
    wait_for_rpm_stabilization healthy_board 0 3000 10 50 0 [mkPoll 10000 [] 10000]
      = Ok (st', TimedOut, log) /\
    samples log = [(10000, 0%Q)] /\
    ~ (10 * 1000 < 10000) /\
    fst (Monitor.run (Monitor.exceeded 10) 3000 50 required_stable_count
           (Sampling, 0) (samples log)) = Sampling.
Proof.
  eexists _, _. split; [reflexivity|]. split; [reflexivity|].
  split; [lia | reflexivity].
Qed.

(** The log of the loop records the world: one entry per turn taken, whose
    elapsed time is the one the turn's loop condition computed from the clock
    and whose speed is the one [read_fan_rpm] returned on that turn; the
    controller left behind is the one these reads leave. *)
Lemma wait_loop_polls fan_id target_rpm timeout tolerance start_time world :
  forall st stable_count st' v log,
    wait_loop st fan_id target_rpm timeout tolerance start_time stable_count world
      = Ok (st', v, log) ->
    (length log <= length world)%nat /\
    polls st fan_id (take (length log) world) = Ok (st', map snd (samples log)) /\
    map fst (samples log) =
      map (fun w => ticks_diff (t_check w) start_time) (take (length log) world).
Proof.
  induction world as [|w world IH]; intros st sc st' v log Hrun.
  - injection Hrun as <- _ <-. repeat split. reflexivity.
  - cbn [wait_loop] in Hrun.
    destruct (deliver st (edges w)) as [st0|] eqn:Hd; [|destruct (_ <? _); discriminate].
    cbn [mbind result_bind] in Hrun.
    destruct (read_fan_rpm st0 fan_id (t_meas w) 2) as [[st1 rpm]|] eqn:Hrpm;
      [|destruct (_ <? _); discriminate].
    cbn [mbind result_bind] in Hrun.
    set (elapsed := ticks_diff (t_check w) start_time) in *.
    assert (forall c, (1 <= length (w :: world))%nat /\
              polls st fan_id (take (length [(elapsed, rpm, c)]) (w :: world))
                = Ok (st1, map snd (samples [(elapsed, rpm, c)])) /\
              map fst (samples [(elapsed, rpm, c)]) =
                map (fun w => ticks_diff (t_check w) start_time)
                  (take (length [(elapsed, rpm, c)]) (w :: world))) as Hone.
    { intros c. split; [simpl; lia|].
      cbn [length take polls map samples fst snd]. rewrite take_0.
      rewrite Hd. cbn [mbind result_bind]. rewrite Hrpm. cbn [mbind result_bind polls].
      split; reflexivity. }
    assert (forall c sc2 st2 v2 log2,
              wait_loop st1 fan_id target_rpm timeout tolerance start_time sc2 world
                = Ok (st2, v2, log2) ->
              (length ((elapsed, rpm, c) :: log2) <= length (w :: world))%nat /\
              polls st fan_id (take (length ((elapsed, rpm, c) :: log2)) (w :: world))
                = Ok (st2, map snd (samples ((elapsed, rpm, c) :: log2))) /\
              map fst (samples ((elapsed, rpm, c) :: log2)) =
                map (fun w => ticks_diff (t_check w) start_time)
                  (take (length ((elapsed, rpm, c) :: log2)) (w :: world))) as Hmore.
    { intros c sc2 st2 v2 log2 Hrec.
      destruct (IH _ _ _ _ _ Hrec) as (Hlen & Hpolls & Hel).
      split; [simpl; lia|].
      unfold samples in *. cbn [length take polls map fst snd].
      rewrite Hd. cbn [mbind result_bind]. rewrite Hrpm. cbn [mbind result_bind].
      rewrite Hpolls. cbn [mbind result_bind]. rewrite Hel. split; reflexivity. }
    destruct (elapsed <? timeout * 1000).
    + destruct (Qle_bool _ _).
      * destruct (required_stable_count <=? sc + 1).
        -- injection Hrun as <- _ <-. apply Hone.
        -- destruct (wait_loop st1 _ _ _ _ _ (sc + 1) world) as [[[st2 v2] log2]|] eqn:Hrec;
             [|discriminate].
           injection Hrun as <- _ <-. exact (Hmore _ _ _ _ _ Hrec).
      * destruct (wait_loop st1 _ _ _ _ _ 0 world) as [[[st2 v2] log2]|] eqn:Hrec;
          [|discriminate].
        injection Hrun as <- _ <-. exact (Hmore _ _ _ _ _ Hrec).
    + injection Hrun as <- _ <-. apply Hone.
Qed.

(** C7, amended: for an integer target and tolerance the wait is the monitor
    with three required hits whose deadline test is "the elapsed time at the
    loop condition has reached the timeout", fed with the world: the elapsed
    time of a turn is the clock read by its loop condition minus the clock on
    entry, and its speed is the one [read_fan_rpm] returns on that turn.  A
    speed within tolerance adds one to the counter and any other resets it to
    0.  The result is [True] exactly when the last turn brought the counter
    to 3 before any loop condition saw the deadline, and [False] exactly when
    a loop condition saw the elapsed time at or beyond the timeout while the
    counter was below 3.  The loop raises nothing on a well-formed
    controller. *)
Theorem wait_for_rpm_stabilization_monitor
  st fan_id (target_rpm : Z) timeout (tolerance : Z) start_time world :
  wf st ->
  exists st' v log,
    wait_for_rpm_stabilization st fan_id (inject_Z target_rpm) timeout
      (inject_Z tolerance) start_time world = Ok (st', v, log) /\
    (length log <= length world)%nat /\
    polls st fan_id (take (length log) world) = Ok (st', map snd (samples log)) /\
    map fst (samples log) =
      map (fun w => ticks_diff (t_check w) start_time) (take (length log) world) /\
    map snd (Monitor.trace (Monitor.reached timeout) (inject_Z target_rpm)
               (inject_Z tolerance) required_stable_count (Sampling, 0) (samples log))
      = stable_counts log /\
    fst (Monitor.run (Monitor.reached timeout) (inject_Z target_rpm)
           (inject_Z tolerance) required_stable_count (Sampling, 0) (samples log)) = v /\
    verdict_shape timeout v log (length world).
Proof.
  intros Hwf. unfold wait_for_rpm_stabilization.
  destruct (wait_loop_monitor fan_id (inject_Z target_rpm) timeout (inject_Z tolerance)
              start_time world st 0 Hwf)
    as (st' & v & log & Hrun & _ & _ & Htr & Hv).
  destruct (wait_loop_polls _ _ _ _ _ _ _ _ _ _ _ Hrun) as (Hlen & Hpolls & Hel).
  exists st', v, log. split; [exact Hrun|]. split; [exact Hlen|].
  split; [exact Hpolls|]. split; [exact Hel|]. split; [exact Htr|]. split; [exact Hv|].
  eapply wait_loop_verdict; [|exact Hrun]. reflexivity.
Qed.

Lemma wait_for_rpm_stabilization_monitor_witness :
  exists st' v log,
    wait_for_rpm_stabilization (board_with_edges 0) 0 3000 10 50 1000 example_world
      = Ok (st', v, log) /\
    v = Stable /\
    polls (board_with_edges 0) 0 example_world = Ok (st', map snd (samples log)) /\
    map fst (samples log) = [0; 3500; 6500; 9500] /\
    Forall2 Qeq (map snd (samples log)) [2000; 3010; 3040; 3005]%Q /\
    stable_counts log = [0; 1; 2; 3] /\
    map snd (Monitor.trace (Monitor.reached 10) 3000 50 required_stable_count
               (Sampling, 0) (samples log)) = [0; 1; 2; 3].
Proof.
  destruct (wait_for_rpm_stabilization_monitor (board_with_edges 0) 0 3000 10 50 1000
              example_world)
    as (st' & v & log & Hrun & Hlen & Hpolls & Hel & Htr & Hv & Hshape).
  - wf_by_computation.
  - exists st', v, log. split; [exact Hrun|].
    vm_compute in Hrun. injection Hrun as <- <- <-.
    split; [reflexivity|]. split; [reflexivity|]. split; [reflexivity|].
    split; [repeat constructor|].
    split; reflexivity.
Defined.

(* ===================================================================== *)
(** * Further properties *)

(** ** Duty control, continued *)

Lemma duty_for_bounds speed : 0 <= speed <= 100 -> 0 <= duty_for speed <= 1023.
Proof.
  intros H. unfold duty_for. rewrite Z.quot_div_nonneg by lia.
  split; [apply Z.div_pos; lia | apply Z.div_le_upper_bound; lia].
Qed.

Lemma valid_speed_spec speed : valid_speed speed = true <-> 0 <= speed <= 100.
Proof. unfold valid_speed. rewrite andb_true_iff, !Z.leb_le. tauto. Qed.

Lemma duty_of_lookup st c :
  0 <= c < Z.of_nat (length (fan_pwms st)) ->
  duty_of st c = (fan_pwms st !! Z.to_nat c) ≫= fmap pwm_duty.
Proof.
  intros Hc. unfold duty_of.
  destruct (getitem_in_range (fan_pwms st) c Hc) as (p & Hp & ->).
  rewrite Hp. now destruct p.
Qed.

(** [set_fan_speed] succeeds exactly for a channel in range that has a PWM
    object and a percentage in [0, 100].  A refused call changes nothing.  A
    successful call writes a duty between 0 and 1023 to that channel and
    leaves every other channel's duty and all measurement state as they were. *)
Theorem set_fan_speed_effect st fan_id speed :
  wf st -> no_faulty st ->
  exists st' ok,
    set_fan_speed st fan_id speed = Ok (st', ok) /\
    (ok = true <->
       in_range fan_id (fan_count st) = true /\ valid_speed speed = true /\
       is_Some (duty_of st fan_id)) /\
    (ok = false -> st' = st) /\
    (ok = true ->
       duty_of st' fan_id = Some (duty_for speed) /\
       0 <= duty_for speed <= 1023 /\
       (forall c, in_range c (fan_count st) = true -> c <> fan_id ->
                  duty_of st' c = duty_of st c) /\
       fg_counters st' = fg_counters st /\
       fg_last_time st' = fg_last_time st /\
       fg_frequencies st' = fg_frequencies st /\
       fg_pins_list st' = fg_pins_list st /\
       fan_count st' = fan_count st).
Proof.
  intros Hwf Hnf. pose proof Hwf as (H0 & Hlen & _).
  destruct (in_range fan_id (fan_count st)) eqn:Hr.
  2:{ exists st, false. rewrite set_fan_speed_invalid by now left.
      repeat split; try discriminate. intros (? & _); discriminate. }
  destruct (valid_speed speed) eqn:Hs.
  2:{ exists st, false. rewrite set_fan_speed_invalid by now right.
      repeat split; try discriminate. intros (_ & ? & _); discriminate. }
  destruct (set_fan_speed_valid st fan_id speed Hwf Hr Hs Hnf) as (p & Hp & ->).
  pose proof Hr as Hr'. apply in_range_spec in Hr'.
  assert (Z.to_nat fan_id < length (fan_pwms st))%nat as Hlt by lia.
  eexists _, _. split; [reflexivity|].
  rewrite duty_of_lookup by lia. rewrite Hp.
  split; [|split].
  - split.
    + intros Hok. apply bool_decide_eq_true in Hok. destruct Hok as [pwm ->].
      repeat split. simpl. eauto.
    + intros (_ & _ & Hsome). apply bool_decide_eq_true.
      destruct p; [eauto | now destruct Hsome].
  - intros Hok. apply bool_decide_eq_false in Hok.
    destruct p as [pwm|]; [exfalso; apply Hok; eauto|].
    simpl. rewrite list_insert_id by exact Hp. now destruct st.
  - intros Hok. apply bool_decide_eq_true in Hok. destruct Hok as [pwm ->].
    split.
    { rewrite duty_of_lookup by (cbn [fan_pwms set_fan_pwms]; rewrite length_insert; lia).
      cbn [fan_pwms set_fan_pwms]. now rewrite list_lookup_insert_eq by exact Hlt. }
    split; [apply duty_for_bounds; now apply valid_speed_spec|].
    split; [|repeat split].
    intros c Hc Hne. apply in_range_spec in Hc.
    rewrite !duty_of_lookup by (cbn [fan_pwms set_fan_pwms]; rewrite ?length_insert; lia).
    cbn [fan_pwms set_fan_pwms]. now rewrite list_lookup_insert_ne by lia.
Qed.

Lemma set_fan_speed_effect_witness :
  exists st' ok,
    set_fan_speed bank_without_channel_3 5 80 = Ok (st', ok) /\
    ok = true /\
    duties st' = [Some 0; Some 0; Some 0; None; Some 0; Some 818; Some 0; Some 0].
Proof.
  destruct (set_fan_speed_effect bank_without_channel_3 5 80)
    as (st' & ok & Hrun & _).
  - wf_by_computation.
  - repeat constructor.
  - exists st', ok. split; [exact Hrun|].
    vm_compute in Hrun. injection Hrun as <- <-. split; reflexivity.
Defined.

Lemma int_status_speed duty : status_speed duty = (duty * 100) ÷ 1023.
Proof. unfold status_speed, Py.int. simpl. now rewrite Z.mul_1_r. Qed.

Lemma roundtrip_table :
  forallb (fun n : nat =>
             let speed := Z.of_nat n in
             status_speed (duty_for speed)
               =? (if (speed =? 0) || (speed =? 100) then speed else speed - 1))
          (seq 0 101) = true.
Proof. vm_compute. reflexivity. Qed.

(** The percentage shown by the status report for a duty that
    [set_fan_speed] wrote is the commanded percentage only for 0 and 100; for
    every percentage in between the report shows one less. *)
Theorem status_speed_after_set speed :
  0 <= speed <= 100 ->
  status_speed (duty_for speed) =
    if (speed =? 0) || (speed =? 100) then speed else speed - 1.
Proof.
  intros H.
  pose proof (proj1 (forallb_forall _ _) roundtrip_table (Z.to_nat speed)) as Ht.
  cbv beta zeta in Ht. rewrite Z2Nat.id in Ht by lia.
  apply Z.eqb_eq, Ht, in_seq. lia.
Qed.

Lemma status_speed_after_set_witness :
  status_speed (duty_for 50) = 49 /\ status_speed (duty_for 100) = 100.
Proof.
  split.
  - apply (status_speed_after_set 50). lia.
  - apply (status_speed_after_set 100). lia.
Defined.

(** [emergency_stop] and [stop_all_fans] leave the same controller behind,
    or raise the same exception; they differ only in the value returned,
    which is always [True] for [emergency_stop]. *)
Theorem emergency_stop_as_stop_all_fans st :
  0 <= fan_count st ->
  emergency_stop st = (stop_all_fans st ≫= fun r => Ok (fst r, true)).
Proof.
  intros H0. unfold emergency_stop, stop_all_fans, set_all_fans_speed.
  pose proof (emergency_loop_as_set_all (Z.to_nat (fan_count st)) st 0%nat 0) as He.
  change (Z.of_nat 0) with 0 in He. rewrite He by lia.
  destruct (set_all_loop st 0 0 (Z.to_nat (fan_count st)) 0) as [[st' sc]|e]; reflexivity.
Qed.

Lemma emergency_stop_as_stop_all_fans_witness :
  emergency_stop bank_faulty_channel_0 = Raise HwError /\
  stop_all_fans bank_faulty_channel_0 = Raise HwError /\
  exists st', emergency_stop bank_without_channel_3 = Ok (st', true) /\
              stop_all_fans bank_without_channel_3 = Ok (st', false).
Proof.
  pose proof (emergency_stop_as_stop_all_fans bank_faulty_channel_0) as H1.
  pose proof (emergency_stop_as_stop_all_fans bank_without_channel_3) as H2.
  split; [|split].
  - rewrite H1 by (vm_compute; congruence). reflexivity.
  - reflexivity.
  - eexists. rewrite H2 by (vm_compute; congruence). split; reflexivity.
Defined.

(** ** Frequency measurement, continued *)

Lemma measured_same st fan_id now :
  wf st -> in_range fan_id (fan_count st) = true ->
  counter_of (measured st fan_id now) fan_id = 0 /\
  last_time_of (measured st fan_id now) fan_id = now /\
  frequency_of (measured st fan_id now) fan_id = frequency_value st fan_id now.
Proof.
  intros (H0 & Hp & Hc & Hl & Hf & Hg) Hr. apply in_range_spec in Hr.
  unfold counter_of, last_time_of, frequency_of, measured.
  cbn [fg_counters fg_last_time fg_frequencies].
  now rewrite !list_lookup_insert_eq by lia.
Qed.

Lemma measured_other st fan_id now c :
  0 <= fan_id -> 0 <= c -> c <> fan_id ->
  counter_of (measured st fan_id now) c = counter_of st c /\
  last_time_of (measured st fan_id now) c = last_time_of st c /\
  frequency_of (measured st fan_id now) c = frequency_of st c.
Proof.
  intros Hi Hc Hne.
  unfold counter_of, last_time_of, frequency_of, measured.
  cbn [fg_counters fg_last_time fg_frequencies].
  now rewrite !list_lookup_insert_ne by lia.
Qed.

(** Measuring one channel leaves the counters, timestamps and frequencies of
    all other channels, every duty and the pin table as they were. *)
Theorem measure_frequency_frame st fan_id now :
  wf st -> in_range fan_id (fan_count st) = true ->
  exists st' f,
    _measure_frequency st fan_id now = Ok (st', f) /\
    fan_pwms st' = fan_pwms st /\
    fg_pins_list st' = fg_pins_list st /\
    fan_count st' = fan_count st /\
    forall c, in_range c (fan_count st) = true -> c <> fan_id ->
      counter_of st' c = counter_of st c /\
      last_time_of st' c = last_time_of st c /\
      frequency_of st' c = frequency_of st c.
Proof.
  intros Hwf Hr. eexists _, _. split; [now apply _measure_frequency_spec|].
  repeat (split; [reflexivity|]).
  intros c Hc Hne. apply in_range_spec in Hr, Hc. apply measured_other; lia.
Qed.

Lemma measure_frequency_frame_witness :
  exists st' f,
    _measure_frequency (board_with_edges 100) 3 5000 = Ok (st', f) /\
    counter_of st' 0 = 100 /\ last_time_of st' 0 = 1000 /\
    counter_of (board_with_edges 100) 0 = 100.
Proof.
  destruct (measure_frequency_frame (board_with_edges 100) 3 5000)
    as (st' & f & Hrun & _ & _ & _ & Hframe).
  - wf_by_computation.
  - reflexivity.
  - exists st', f. split; [exact Hrun|].
    destruct (Hframe 0) as (Hc & Hl & _); [reflexivity | lia |].
    rewrite Hc, Hl. repeat split.
Defined.

Lemma read_fan_rpm_cases st fan_id now :
  wf st -> in_range fan_id (fan_count st) = true ->
  (Py.getitem (fg_pins_list st) fan_id = Ok None /\
   forall ppr, read_fan_rpm st fan_id now ppr = Ok (st, 0%Q)) \/
  (pinned st fan_id /\
   forall ppr, read_fan_rpm st fan_id now ppr =
     if Qgt_bool (frequency_value st fan_id now) 0 then
       rpm ← Py.truediv (frequency_value st fan_id now * 60) ppr;
       Ok (measured st fan_id now, Py.round1 rpm)
     else Ok (measured st fan_id now, 0%Q)).
Proof.
  intros Hwf Hr.
  destruct (read_fan_fg_frequency_cases st fan_id now Hwf Hr) as [[Hn H]|[Hpin H]].
  - left. split; [exact Hn|]. intros ppr. now apply read_fan_rpm_zero.
  - right. split; [exact Hpin|]. intros ppr. unfold read_fan_rpm. now rewrite H.
Qed.

(** Sign of the stored frequency: positive exactly when the window is open
    and the counter is positive. *)
Lemma frequency_value_sign st fan_id now :
  ((0 < frequency_value st fan_id now)%Q <->
     window_open st fan_id now = true /\ 0 < counter_of st fan_id) /\
  ((frequency_value st fan_id now == 0)%Q <->
     window_open st fan_id now = false \/ counter_of st fan_id = 0).
Proof.
  unfold frequency_value.
  destruct (window_open st fan_id now) eqn:Hopen.
  - unfold window_open in Hopen. apply andb_true_iff in Hopen as [_ Hdt].
    apply Z.ltb_lt in Hdt.
    destruct (ticks_diff now (last_time_of st fan_id)) as [|p|p]; try lia.
    unfold Qlt, Qeq. simpl. split; split.
    + intros H. split; [reflexivity | lia].
    + intros [_ H]. lia.
    + intros H. right. lia.
    + intros [H|H]; [discriminate | lia].
  - split; split.
    + intros H. exfalso. exact (Qlt_irrefl 0 H).
    + intros [H _]. discriminate.
    + intros _. now left.
    + intros _. reflexivity.
Qed.

Lemma round_nonneg q : (0 <= q)%Q -> 0 <= Py.round q.
Proof.
  intros Hq. unfold Py.round.
  assert (0 <= Qfloor q) as Hf.
  { change 0 with (Qfloor 0). now apply Qfloor_resp_le. }
  destruct (q - inject_Z (Qfloor q) ?= 1 # 2)%Q; [destruct (Z.even _)| |]; lia.
Qed.

Lemma round1_nonneg q : (0 <= q)%Q -> (0 <= Py.round1 q)%Q.
Proof.
  intros Hq. unfold Py.round1.
  assert (0 <= Py.round (q * 10)) as Hr.
  { apply round_nonneg. apply Qmult_le_0_compat; [exact Hq | discriminate]. }
  unfold Qle. simpl. lia.
Qed.

Lemma read_fan_rpm_nonneg_total st fan_id now ppr :
  wf st -> (0 < ppr)%Q ->
  exists st' rpm, read_fan_rpm st fan_id now ppr = Ok (st', rpm) /\ (0 <= rpm)%Q.
Proof.
  intros Hwf Hppr.
  destruct (in_range fan_id (fan_count st)) eqn:Hr.
  2:{ exists st, 0%Q. split; [|apply Qle_refl].
      apply read_fan_rpm_zero. unfold read_fan_fg_frequency. now rewrite Hr. }
  destruct (read_fan_rpm_cases st fan_id now Hwf Hr) as [[_ H]|[_ H]]; rewrite H.
  - eexists _, _. split; [reflexivity | apply Qle_refl].
  - destruct (Qgt_bool (frequency_value st fan_id now) 0) eqn:Hpos.
    + unfold Py.truediv.
      assert (Qeq_bool ppr 0 = false) as ->.
      { destruct (Qeq_bool ppr 0) eqn:E; [|reflexivity].
        apply Qeq_bool_eq in E. rewrite E in Hppr. exfalso. exact (Qlt_irrefl 0 Hppr). }
      cbn [mbind result_bind]. eexists _, _. split; [reflexivity|].
      apply round1_nonneg. apply Qgt_bool_true in Hpos.
      apply Qle_shift_div_l; [exact Hppr|]. rewrite Qmult_0_l.
      apply Qmult_le_0_compat; [now apply Qlt_le_weak | discriminate].
    + eexists _, _. split; [reflexivity | apply Qle_refl].
Qed.

(** The speed returned by [read_fan_rpm] is never negative when
    [pulses_per_revolution] is positive, whatever the counter holds, and the
    call raises nothing. *)
Theorem read_fan_rpm_nonneg st fan_id now ppr :
  wf st -> (0 < ppr)%Q ->
  exists st' rpm, read_fan_rpm st fan_id now ppr = Ok (st', rpm) /\ (0 <= rpm)%Q.
Proof.
  intros Hwf Hppr.
  destruct (read_fan_rpm_nonneg_total st fan_id now ppr Hwf Hppr) as (st' & rpm & Hread).
  exists st', rpm. exact Hread.
Qed.

Lemma read_fan_rpm_nonneg_witness :
  exists st1 st' rpm,
    read_fan_fg_frequency healthy_board 0 1000 = Ok (st1, 0%Q) /\
    read_fan_rpm (poke_counter st1 0 (-10)) 0 2000 2 = Ok (st', rpm) /\ (0 <= rpm)%Q.
Proof.
  eexists. 
  destruct (read_fan_rpm_nonneg
              (poke_counter (measured healthy_board 0 1000) 0 (-10)) 0 2000 2)
    as (st' & rpm & Hrun & Hle).
  - wf_by_computation.
  - reflexivity.
  - exists st', rpm. split; [reflexivity|]. split; [exact Hrun | exact Hle].
Defined.



(** ** Consecutive reads *)

Lemma frequency_value_drained st fan_id now :
  counter_of st fan_id = 0 ->
  (frequency_value st fan_id now == 0)%Q /\
  Qgt_bool (frequency_value st fan_id now) 0 = false.
Proof.
  intros Hc.
  assert (frequency_value st fan_id now == 0)%Q as Hz
    by (apply frequency_value_sign; now right).
  split; [exact Hz|]. apply Qgt_bool_false. rewrite Hz. apply Qle_refl.
Qed.

Lemma read_fan_fg_frequency_done st fan_id now st1 f :
  wf st -> in_range fan_id (fan_count st) = true ->
  read_fan_fg_frequency st fan_id now = Ok (st1, f) ->
  read_done st st1 fan_id.
Proof.
  intros Hwf Hr Hread.
  destruct (read_fan_fg_frequency_cases st fan_id now Hwf Hr) as [[Hn H]|[_ H]];
    rewrite H in Hread; injection Hread as <- <-.
  - repeat split; try assumption; try apply Hwf. intros (pin & Hpin). congruence.
  - split; [now apply measured_wf|]. repeat split.
    intros _. now apply measured_same.
Qed.

Lemma read_fan_rpm_done st fan_id now ppr st1 rpm :
  wf st -> in_range fan_id (fan_count st) = true ->
  read_fan_rpm st fan_id now ppr = Ok (st1, rpm) ->
  read_done st st1 fan_id.
Proof.
  intros Hwf Hr Hread. unfold read_fan_rpm in Hread.
  destruct (read_fan_fg_frequency st fan_id now) as [[st' f]|] eqn:Hf; [|discriminate].
  cbn [mbind result_bind] in Hread.
  assert (st1 = st') as ->.
  { destruct (Qgt_bool f 0); [|congruence].
    destruct (Py.truediv (f * 60) ppr); [|discriminate].
    cbn [mbind result_bind] in Hread. congruence. }
  exact (read_fan_fg_frequency_done st fan_id now st' f Hwf Hr Hf).
Qed.

Lemma second_read st st1 fan_id now :
  in_range fan_id (fan_count st) = true ->
  read_done st st1 fan_id ->
  (exists st2 f, read_fan_fg_frequency st1 fan_id now = Ok (st2, f) /\ (f == 0)%Q) /\
  (forall ppr, exists st2, read_fan_rpm st1 fan_id now ppr = Ok (st2, 0%Q)).
Proof.
  intros Hr (Hwf1 & Hn & Hpins & Hdrained).
  assert (in_range fan_id (fan_count st1) = true) as Hr1 by congruence.
  assert (pinned st1 fan_id -> pinned st fan_id) as Hpin.
  { unfold pinned. now rewrite Hpins. }
  split.
  - destruct (read_fan_fg_frequency_cases st1 fan_id now Hwf1 Hr1) as [[_ H]|[Hp H]];
      rewrite H; eexists _, _; (split; [reflexivity|]); [reflexivity|].
    now apply frequency_value_drained, Hdrained, Hpin.
  - intros ppr.
    destruct (read_fan_rpm_cases st1 fan_id now Hwf1 Hr1) as [[_ H]|[Hp H]];
      rewrite H; [eauto|].
    destruct (frequency_value_drained st1 fan_id now) as [_ ->];
      [now apply Hdrained, Hpin | eauto].
Qed.

(** A read consumes the window: when no edge arrives after a read of a
    channel, the next read of that channel returns 0, at whatever time it is
    made.  This is the second value of every pair of reads that the menu and
    debugging code make for one line of output. *)
Theorem consecutive_reads_return_zero st fan_id t1 t2 ppr :
  wf st -> in_range fan_id (fan_count st) = true ->
  (forall st1 rpm,
     read_fan_rpm st fan_id t1 ppr = Ok (st1, rpm) ->
     exists st2 f, read_fan_fg_frequency st1 fan_id t2 = Ok (st2, f) /\ (f == 0)%Q) /\
  (forall st1 f,
     read_fan_fg_frequency st fan_id t1 = Ok (st1, f) ->
     exists st2, read_fan_rpm st1 fan_id t2 ppr = Ok (st2, 0%Q)).
Proof.
  intros Hwf Hr. split.
  - intros st1 rpm Hread.
    apply (second_read st st1 fan_id t2 Hr).
    exact (read_fan_rpm_done st fan_id t1 ppr st1 rpm Hwf Hr Hread).
  - intros st1 f Hread.
    apply (second_read st st1 fan_id t2 Hr).
    exact (read_fan_fg_frequency_done st fan_id t1 st1 f Hwf Hr Hread).
Qed.

Lemma consecutive_reads_return_zero_witness :
  exists st1 rpm st2 f,
    read_fan_rpm (board_with_edges 100) 0 2000 2 = Ok (st1, rpm) /\ (rpm == 1500)%Q /\
    read_fan_fg_frequency st1 0 2003 = Ok (st2, f) /\ (f == 0)%Q.
Proof.
  destruct (consecutive_reads_return_zero (board_with_edges 100) 0 2000 2003 2)
    as [Hpair _]; [wf_by_computation | reflexivity |].
  eexists _, _.
  edestruct Hpair as (st2 & f & Hsecond & Hzero); [reflexivity|].
  exists st2, f. split; [reflexivity|]. split; [reflexivity|].
  split; [exact Hsecond | exact Hzero].
Defined.

(** ** The zero timestamp *)

(** A measurement made while the clock reads 0 stores the timestamp 0, which
    the next measurement takes for "never measured": it returns 0 and throws
    away whatever edges were counted in between. *)
Theorem measurement_at_tick_zero st fan_id cs now :
  wf st -> in_range fan_id (fan_count st) = true ->
  exists st1 f1 st2 st3,
    _measure_frequency st fan_id 0 = Ok (st1, f1) /\
    deliver st1 cs = Ok st2 /\
    counter_of st2 fan_id = occurrences fan_id cs /\
    _measure_frequency st2 fan_id now = Ok (st3, 0%Q) /\
    counter_of st3 fan_id = 0.
Proof.
  intros Hwf Hr.
  pose proof (measured_wf st fan_id 0 Hwf) as Hwf1.
  destruct (deliver_counter cs _ Hwf1) as (st2 & Hd & Hwf2 & Hn2 & Hl2 & _ & Hc2).
  assert (in_range fan_id (fan_count st2) = true) as Hr2 by (rewrite Hn2; exact Hr).
  destruct (measured_same st fan_id 0 Hwf Hr) as (Hc0 & Hl0 & _).
  exists (measured st fan_id 0), (frequency_value st fan_id 0), st2, (measured st2 fan_id now).
  split; [now apply _measure_frequency_spec|]. split; [exact Hd|].
  split; [rewrite Hc2 by exact Hr; lia|].
  split.
  - rewrite _measure_frequency_spec by assumption.
    rewrite frequency_value_closed; [reflexivity|].
    left. unfold last_time_of in *. rewrite Hl2, Hl0. lia.
  - now apply measured_same.
Qed.

Lemma measurement_at_tick_zero_witness :
  exists st1 f1 st2 st3,
    _measure_frequency (board_with_edges 5) 0 0 = Ok (st1, f1) /\
    deliver st1 (replicate 100 0) = Ok st2 /\
    counter_of st2 0 = occurrences 0 (replicate 100 0) /\
    _measure_frequency st2 0 1000 = Ok (st3, 0%Q) /\
    counter_of st3 0 = 0.
Proof.
  apply (measurement_at_tick_zero (board_with_edges 5) 0 (replicate 100 0) 1000);
    [wf_by_computation | reflexivity].
Defined.

(** ** Counters stay non-negative *)

Lemma irq_nonneg st c st' :
  counters_nonneg st -> irq st c = Ok st' -> counters_nonneg st'.
Proof.
  unfold irq, handler, counters_nonneg. intros Hnn Hirq.
  destruct (in_range c (fan_count st)); [|now injection Hirq as <-].
  unfold Py.getitem, Py.setitem in Hirq.
  destruct (Py.index (fg_counters st) c) as [k|]; [|discriminate].
  destruct (fg_counters st !! k) as [v|] eqn:Hv; [|discriminate].
  cbn [mbind result_bind] in Hirq. injection Hirq as <-.
  cbn [fg_counters set_fg_counters]. apply Forall_insert; [exact Hnn|].
  pose proof (Forall_lookup_1 _ _ _ _ Hnn Hv) as Hge. simpl in Hge. lia.
Qed.

Lemma deliver_nonneg cs :
  forall st st', counters_nonneg st -> deliver st cs = Ok st' -> counters_nonneg st'.
Proof.
  induction cs as [|c cs IH]; intros st st' Hnn Hd; cbn [deliver] in Hd.
  - now injection Hd as <-.
  - destruct (irq st c) as [st1|] eqn:Hirq; [|discriminate].
    cbn [mbind result_bind] in Hd.
    exact (IH st1 st' (irq_nonneg st c st1 Hnn Hirq) Hd).
Qed.

Lemma measure_reset_nonneg st fan_id now st' f :
  counters_nonneg st -> measure_reset st fan_id now = Ok (st', f) -> counters_nonneg st'.
Proof.
  unfold measure_reset, counters_nonneg, Py.setitem. intros Hnn Hm.
  destruct (Py.index (fg_counters st) fan_id) as [k|]; [|discriminate].
  cbn [mbind result_bind fg_last_time set_fg_counters] in Hm.
  destruct (Py.index (fg_last_time st) fan_id) as [k'|]; [|discriminate].
  cbn [mbind result_bind] in Hm.
  destruct (Py.getitem _ fan_id); [|discriminate].
  cbn [mbind result_bind] in Hm. injection Hm as <- _.
  cbn [fg_counters set_fg_counters set_fg_last_time].
  apply Forall_insert; [exact Hnn | lia].
Qed.

Lemma measure_compute_counters st fan_id now st' :
  measure_compute st fan_id now = Ok st' -> fg_counters st' = fg_counters st.
Proof.
  unfold measure_compute. intros Hm.
  destruct (Py.getitem (fg_last_time st) fan_id) as [last|]; [|discriminate].
  cbn [mbind result_bind] in Hm.
  assert (forall q, (fs ← Py.setitem (fg_frequencies st) fan_id q;
                     Ok (set_fg_frequencies st fs)) = Ok st' ->
                    fg_counters st' = fg_counters st) as Hset.
  { intros q H. destruct (Py.setitem (fg_frequencies st) fan_id q); [|discriminate].
    cbn [mbind result_bind] in H. now injection H as <-. }
  destruct (0 <? last); [|exact (Hset _ Hm)].
  destruct (0 <? ticks_diff now last); [|exact (Hset _ Hm)].
  destruct (Py.getitem (fg_counters st) fan_id); [|discriminate].
  cbn [mbind result_bind] in Hm.
  destruct (Py.truediv _ _); [|discriminate].
  cbn [mbind result_bind] in Hm. exact (Hset _ Hm).
Qed.

Lemma _measure_frequency_irq_nonneg st fan_id now irqs st' f :
  counters_nonneg st -> _measure_frequency_irq st fan_id now irqs = Ok (st', f) ->
  counters_nonneg st'.
Proof.
  unfold _measure_frequency_irq. intros Hnn Hm.
  destruct (in_range fan_id (fan_count st)); cbn [negb] in Hm.
  - destruct (measure_compute st fan_id now) as [st1|] eqn:H1; [|discriminate].
    cbn [mbind result_bind] in Hm.
    destruct (deliver st1 irqs) as [st2|] eqn:H2; [|discriminate].
    cbn [mbind result_bind] in Hm.
    eapply measure_reset_nonneg; [|exact Hm].
    eapply deliver_nonneg; [|exact H2].
    unfold counters_nonneg. now rewrite (measure_compute_counters _ _ _ _ H1).
  - destruct (deliver st irqs) as [st2|] eqn:H2; [|discriminate].
    cbn [mbind result_bind] in Hm. injection Hm as <- _.
    exact (deliver_nonneg irqs st st2 Hnn H2).
Qed.

Lemma run_nonneg c evs :
  forall st t, counters_nonneg st -> run c st evs = Ok t -> counters_nonneg (final t).
Proof.
  induction evs as [|[e|fan_id now irqs] evs IH]; intros st t Hnn Hrun; cbn [run] in Hrun.
  - now injection Hrun as <-.
  - destruct (irq st e) as [st1|] eqn:Hirq; [|discriminate].
    cbn [mbind result_bind] in Hrun.
    exact (IH st1 t (irq_nonneg st e st1 Hnn Hirq) Hrun).
  - destruct (_measure_frequency_irq st fan_id now irqs) as [[st1 f]|] eqn:Hm;
      [|discriminate].
    cbn [mbind result_bind] in Hrun.
    destruct (run c st1 evs) as [t1|] eqn:Hrec; [|discriminate].
    cbn [mbind result_bind] in Hrun.
    pose proof (IH st1 t1 (_measure_frequency_irq_nonneg _ _ _ _ _ _ Hnn Hm) Hrec) as Hfin.
    destruct (fan_id =? c); injection Hrun as <-; exact Hfin.
Qed.

Lemma frequency_value_nonneg st fan_id now :
  counters_nonneg st -> (0 <= frequency_value st fan_id now)%Q.
Proof.
  intros Hnn.
  assert (0 <= counter_of st fan_id) as Hc.
  { unfold counter_of. destruct (fg_counters st !! Z.to_nat fan_id) as [v|] eqn:Hv;
      [|simpl; lia].
    exact (Forall_lookup_1 _ _ _ _ Hnn Hv). }
  destruct (Z.eq_dec (counter_of st fan_id) 0) as [Hz|Hnz].
  - apply Qle_lteq. right. symmetry. apply frequency_value_sign. now right.
  - destruct (window_open st fan_id now) eqn:Hopen.
    + apply Qlt_le_weak, frequency_value_sign. split; [exact Hopen | lia].
    + apply Qle_lteq. right. symmetry. apply frequency_value_sign. now left.
Qed.

Lemma run_wf c evs :
  forall st t, wf st -> run c st evs = Ok t -> wf (final t).
Proof.
  induction evs as [|[e|fan_id now irqs] evs IH]; intros st t Hwf Hrun; cbn [run] in Hrun.
  - now injection Hrun as <-.
  - destruct (irq_counter st e Hwf) as (st1 & Hirq & Hwf1 & _).
    rewrite Hirq in Hrun. cbn [mbind result_bind] in Hrun. exact (IH st1 t Hwf1 Hrun).
  - destruct (_measure_frequency_irq_spec st fan_id now irqs Hwf)
      as (st1 & f & Hm & Hwf1 & _).
    rewrite Hm in Hrun. cbn [mbind result_bind] in Hrun.
    destruct (run c st1 evs) as [t1|] eqn:Hrec; [|discriminate].
    cbn [mbind result_bind] in Hrun.
    pose proof (IH st1 t1 Hwf1 Hrec) as Hfin.
    destruct (fan_id =? c); injection Hrun as <-; exact Hfin.
Qed.

(** From the constructor on, edges and measurements in any order (edges
    inside measurements included) never make a counter negative, so every
    frequency read afterwards is at least 0. *)
Theorem frequency_never_negative pwm_hw fg_hw c evs t fan_id now st' f :
  run c (FanController_init pwm_hw fg_hw) evs = Ok t ->
  read_fan_fg_frequency (final t) fan_id now = Ok (st', f) ->
  counters_nonneg (final t) /\ (0 <= f)%Q.
Proof.
  intros Hrun Hread.
  assert (counters_nonneg (final t)) as Hnn.
  { eapply run_nonneg; [|exact Hrun].
    unfold counters_nonneg, FanController_init. cbn [fg_counters].
    apply Forall_replicate. lia. }
  pose proof (run_wf c evs _ t (FanController_init_wf pwm_hw fg_hw) Hrun) as Hwf.
  split; [exact Hnn|].
  destruct (in_range fan_id (fan_count (final t))) eqn:Hr.
  - destruct (read_fan_fg_frequency_cases (final t) fan_id now Hwf Hr) as [[_ H]|[_ H]];
      rewrite H in Hread; injection Hread as _ <-;
      [apply Qle_refl | now apply frequency_value_nonneg].
  - unfold read_fan_fg_frequency in Hread. rewrite Hr in Hread.
    injection Hread as _ <-. apply Qle_refl.
Qed.

Lemma frequency_never_negative_witness :
  exists t st' f,
    run 0 healthy_board [Measure 0 1000 []; Edge 0; Edge 0; Measure 1 1500 [0]] = Ok t /\
    read_fan_fg_frequency (final t) 0 2000 = Ok (st', f) /\
    counters_nonneg (final t) /\ (0 <= f)%Q.
Proof.
  destruct (run 0 healthy_board [Measure 0 1000 []; Edge 0; Edge 0; Measure 1 1500 [0]])
    as [t|] eqn:Hrun; [|vm_compute in Hrun; discriminate].
  destruct (read_fan_fg_frequency (final t) 0 2000) as [[st' f]|] eqn:Hread.
  - exists t, st', f. split; [reflexivity|]. split; [exact Hread|].
    exact (frequency_never_negative (fun _ => Some false) (fun _ => FgOk) 0 _ t 0 2000 st' f
             Hrun Hread).
  - exfalso. vm_compute in Hrun. injection Hrun as <-.
    vm_compute in Hread. discriminate.
Defined.

Lemma run_total c evs : forall st, wf st -> exists t, run c st evs = Ok t.
Proof.
  induction evs as [|[e|fan_id now irqs] evs IH]; intros st Hwf; cbn [run].
  - eexists. reflexivity.
  - destruct (irq_counter st e Hwf) as (st1 & -> & Hwf1 & _).
    cbn [mbind result_bind]. exact (IH st1 Hwf1).
  - destruct (_measure_frequency_irq_spec st fan_id now irqs Hwf)
      as (st1 & f & -> & Hwf1 & _).
    cbn [mbind result_bind]. destruct (IH st1 Hwf1) as (t & ->).
    cbn [mbind result_bind]. destruct (fan_id =? c); eexists; reflexivity.
Qed.

(** C5, amended: the measurement has no clamp, and needs none for the
    controllers the program can be in.  The counters start at 0 and are only
    ever incremented by an edge handler or reset to 0 by a measurement, so
    after any sequence of edges and measurements from the constructor on
    (edges inside measurements included) no counter is negative, and every
    frequency and every speed read then (for a positive number of pulses per
    revolution) is at least 0.  Nothing in the sequence raises. *)
Theorem frequency_nonneg_from_constructor pwm_hw fg_hw c evs fan_id now ppr :
  (0 < ppr)%Q ->
  exists t st1 hz st2 rpm,
    run c (FanController_init pwm_hw fg_hw) evs = Ok t /\
    counters_nonneg (final t) /\
    read_fan_fg_frequency (final t) fan_id now = Ok (st1, hz) /\ (0 <= hz)%Q /\
    read_fan_rpm (final t) fan_id now ppr = Ok (st2, rpm) /\ (0 <= rpm)%Q.
Proof.
  intros Hppr.
  destruct (run_total c evs _ (FanController_init_wf pwm_hw fg_hw)) as (t & Hrun).
  assert (counters_nonneg (final t)) as Hnn.
  { eapply run_nonneg; [|exact Hrun].
    unfold counters_nonneg, FanController_init. cbn [fg_counters].
    apply Forall_replicate. lia. }
  pose proof (run_wf c evs _ t (FanController_init_wf pwm_hw fg_hw) Hrun) as Hwf.
  destruct (read_fan_rpm_nonneg_total (final t) fan_id now ppr Hwf Hppr)
    as (st2 & rpm & Hrpm & Hpos).
  assert (exists st1 hz,
            read_fan_fg_frequency (final t) fan_id now = Ok (st1, hz) /\ (0 <= hz)%Q)
    as (st1 & hz & Hread & Hhz).
  { destruct (in_range fan_id (fan_count (final t))) eqn:Hr.
    - destruct (read_fan_fg_frequency_cases (final t) fan_id now Hwf Hr)
        as [[_ H]|[_ H]]; rewrite H; eexists _, _; (split; [reflexivity|]);
        [apply Qle_refl | now apply frequency_value_nonneg].
    - exists (final t), 0%Q. split; [|apply Qle_refl].
      unfold read_fan_fg_frequency. now rewrite Hr. }
  exists t, st1, hz, st2, rpm. repeat split; assumption.
Qed.

Lemma frequency_nonneg_from_constructor_witness :
  exists t st1 hz st2 rpm,
    run 0 healthy_board [Measure 0 1000 []; Edge 0; Edge 0; Measure 1 1500 [0]] = Ok t /\
    counters_nonneg (final t) /\
    read_fan_fg_frequency (final t) 0 2000 = Ok (st1, hz) /\ (0 <= hz)%Q /\
    read_fan_rpm (final t) 0 2000 2 = Ok (st2, rpm) /\ (0 <= rpm)%Q.
Proof.
  apply (frequency_nonneg_from_constructor (fun _ => Some false) (fun _ => FgOk) 0
           [Measure 0 1000 []; Edge 0; Edge 0; Measure 1 1500 [0]] 0 2000 2).
  reflexivity.
Defined.

(** ** Waiting for a stable speed, continued *)

Lemma wait_loop_stable_hits fan_id target_rpm timeout tolerance start_time world :
  forall st stable_count st' log,
    0 <= stable_count < required_stable_count ->
    wait_loop st fan_id target_rpm timeout tolerance start_time stable_count world
      = Ok (st', Stable, log) ->
    (Z.of_nat (length log) = required_stable_count - stable_count /\
     Forall (turn_hits target_rpm tolerance timeout) log) \/
    (exists log1 log2,
       log = log1 ++ log2 /\ Z.of_nat (length log2) = required_stable_count /\
       Forall (turn_hits target_rpm tolerance timeout) log2).
Proof.
  unfold required_stable_count.
  induction world as [|w world IH]; intros st sc st' log Hsc Hrun; [discriminate|].
  cbn [wait_loop] in Hrun.
  destruct (deliver st (edges w)) as [st0|]; [|destruct (_ <? _); discriminate].
  cbn [mbind result_bind] in Hrun.
  destruct (read_fan_rpm st0 fan_id (t_meas w) 2) as [[st1 rpm]|];
    [|destruct (_ <? _); discriminate].
  cbn [mbind result_bind] in Hrun.
  set (elapsed := ticks_diff (t_check w) start_time) in *.
  destruct (Z.ltb_spec elapsed (timeout * 1000)) as [Hlt|Hge]; [|discriminate].
  change (Qle_bool (Py.abs (rpm - target_rpm)) tolerance)
    with (Monitor.hit target_rpm tolerance rpm) in Hrun.
  destruct (Monitor.hit target_rpm tolerance rpm) eqn:Hhit.
  - unfold required_stable_count in Hrun.
    destruct (Z.leb_spec 3 (sc + 1)) as [Hreq|Hreq].
    + injection Hrun as _ <-. left. split; [simpl; lia|].
      repeat constructor; assumption.
    + destruct (wait_loop st1 _ _ _ _ _ (sc + 1) world) as [[[st2 v2] log2]|] eqn:Hrec;
        [|discriminate].
      injection Hrun as _ -> <-.
      destruct (IH st1 (sc + 1) st2 log2) as [(Hlen & Hall)|(l1 & l2 & -> & Hlen & Hall)];
        [lia | exact Hrec | |].
      * left. split; [simpl length; lia|]. constructor; [split; assumption | exact Hall].
      * right. exists ((elapsed, rpm, sc + 1) :: l1), l2. repeat split; assumption.
  - destruct (wait_loop st1 _ _ _ _ _ 0 world) as [[[st2 v2] log2]|] eqn:Hrec;
      [|discriminate].
    injection Hrun as _ -> <-.
    right.
    destruct (IH st1 0 st2 log2) as [(Hlen & Hall)|(l1 & l2 & -> & Hlen & Hall)];
      [lia | exact Hrec | |].
    + exists [(elapsed, rpm, 0)], log2. repeat split; [lia | exact Hall].
    + exists ((elapsed, rpm, 0) :: l1), l2. repeat split; assumption.
Qed.

(** [wait_for_rpm_stabilization], called with an integer target and
    tolerance, returns [True] only after at least three turns.  The speeds in
    its log are the ones [read_fan_rpm] returned turn by turn and the elapsed
    times are the ones the loop conditions computed from the clock; the last
    three speeds were all within the tolerance of the target, and the loop
    condition of each of these three turns found the elapsed time below the
    timeout.  (The read itself happens after the loop condition and is not
    bounded by the timeout.) *)
Theorem wait_true_means_three_hits
  st fan_id (target_rpm : Z) timeout (tolerance : Z) start_time world st' log :
  wait_for_rpm_stabilization st fan_id (inject_Z target_rpm) timeout
    (inject_Z tolerance) start_time world = Ok (st', Stable, log) ->
  polls st fan_id (take (length log) world) = Ok (st', map snd (samples log)) /\
  map fst (samples log) =
    map (fun w => ticks_diff (t_check w) start_time) (take (length log) world) /\
  exists earlier last3,
    log = earlier ++ last3 /\ length last3 = 3%nat /\
    Forall (turn_hits (inject_Z target_rpm) (inject_Z tolerance) timeout) last3.
Proof.
  intros Hrun. unfold wait_for_rpm_stabilization in Hrun.
  destruct (wait_loop_polls _ _ _ _ _ _ _ _ _ _ _ Hrun) as (_ & Hpolls & Hel).
  split; [exact Hpolls|]. split; [exact Hel|].
  destruct (wait_loop_stable_hits fan_id (inject_Z target_rpm) timeout (inject_Z tolerance)
              start_time world st 0 st' log)
    as [(Hlen & Hall)|(l1 & l2 & -> & Hlen & Hall)];
    [unfold required_stable_count; lia | exact Hrun | |];
    unfold required_stable_count in Hlen.
  - exists [], log. repeat split; [lia | exact Hall].
  - exists l1, l2. repeat split; [lia | exact Hall].
Qed.

Lemma wait_true_means_three_hits_witness :
  exists st' log earlier last3,
    wait_for_rpm_stabilization (board_with_edges 0) 0 3000 10 50 1000 example_world
      = Ok (st', Stable, log) /\
    polls (board_with_edges 0) 0 (take (length log) example_world)
      = Ok (st', map snd (samples log)) /\
    map fst (samples log) =
      map (fun w => ticks_diff (t_check w) 1000) (take (length log) example_world) /\
    log = earlier ++ last3 /\ length last3 = 3%nat /\
    Forall (turn_hits 3000 50 10) last3.
Proof.
  destruct (wait_for_rpm_stabilization (board_with_edges 0) 0 3000 10 50 1000 example_world)
    as [[[st' v] log]|] eqn:Hrun; [|vm_compute in Hrun; discriminate].
  assert (v = Stable) as -> by (vm_compute in Hrun; congruence).
  destruct (wait_true_means_three_hits _ _ 3000 _ 50 _ _ _ _ Hrun)
    as (Hpolls & Hel & l1 & l2 & H).
  exists st', log, l1, l2. split; [reflexivity|]. split; [exact Hpolls|].
  split; [exact Hel | exact H].
Defined.

(** ** The pin table built by the constructor *)

Lemma init_fg_pins_length hw pins :
  length (concat (map (init_fg_pin hw) pins)) = (length pins + irq_failures hw pins)%nat.
Proof.
  unfold irq_failures. induction pins as [|p pins IH]; [reflexivity|].
  cbn [map concat sum_list_with]. rewrite length_app, IH. unfold init_fg_pin.
  destruct (hw p); simpl; lia.
Qed.

(** [fg_pins_list] gets one entry per channel plus one more for every
    channel whose [irq] call raised, so it is longer than the channel count as
    soon as one [irq] call fails. *)
Theorem fg_pins_list_length pwm_hw fg_hw :
  length (fg_pins_list (FanController_init pwm_hw fg_hw)) =
    (8 + irq_failures fg_hw fg_pins)%nat.
Proof.
  unfold FanController_init, _init_fg_interrupts. cbn [fg_pins_list].
  now rewrite init_fg_pins_length.
Qed.

Lemma init_fg_shift hw pins :
  forall (k : nat) pin,
    pins !! k = Some pin ->
    (forall (j : nat) p, (j < k)%nat -> pins !! j = Some p -> hw p <> FgIrqRaises) ->
    hw pin = FgIrqRaises ->
    concat (map (init_fg_pin hw) pins) !! k = Some (Some pin) /\
    concat (map (init_fg_pin hw) pins) !! S k = Some None.
Proof.
  induction pins as [|p pins IH]; intros k pin Hk Hbefore Hirq; [discriminate|].
  destruct k as [|k].
  - injection Hk as ->. cbn [map concat]. unfold init_fg_pin at 1 3. rewrite Hirq.
    split; reflexivity.
  - cbn [map concat].
    assert (exists x, init_fg_pin hw p = [x]) as (x & ->).
    { pose proof (Hbefore 0%nat p ltac:(lia) eq_refl) as Hp. unfold init_fg_pin.
      destruct (hw p); [eauto | eauto | congruence]. }
    apply (IH k pin Hk); [|exact Hirq].
    intros j q Hj Hq. apply (Hbefore (S j) q); [lia | exact Hq].
Qed.

(** When the [irq] call of channel [k] is the first one to raise, the entry
    of channel [k] still holds its pin object and the entry of channel [k+1]
    holds [None]: channel [k+1] then reads as 0 for ever, whatever happened to
    its own pin. *)
Theorem irq_failure_shifts_pin_table pwm_hw fg_hw (k : nat) pin now :
  fg_pins !! k = Some pin ->
  fg_hw pin = FgIrqRaises ->
  (forall (j : nat) p, (j < k)%nat -> fg_pins !! j = Some p -> fg_hw p <> FgIrqRaises) ->
  let st := FanController_init pwm_hw fg_hw in
  Py.getitem (fg_pins_list st) (Z.of_nat k) = Ok (Some pin) /\
  Py.getitem (fg_pins_list st) (Z.of_nat k + 1) = Ok None /\
  ((k < 7)%nat -> read_fan_fg_frequency st (Z.of_nat k + 1) now = Ok (st, 0%Q)).
Proof.
  intros Hk Hirq Hbefore st.
  destruct (init_fg_shift fg_hw fg_pins k pin Hk Hbefore Hirq) as (Hk0 & Hk1).
  assert (k < 8)%nat as Hlt by (apply lookup_lt_Some in Hk; exact Hk).
  pose proof (lookup_lt_Some _ _ _ Hk0) as Hb0.
  pose proof (lookup_lt_Some _ _ _ Hk1) as Hb1.
  change (concat (map (init_fg_pin fg_hw) fg_pins)) with (fg_pins_list st) in *.
  assert (Py.getitem (fg_pins_list st) (Z.of_nat k) = Ok (Some pin)) as H0.
  { unfold Py.getitem. rewrite index_in_range by lia. rewrite Nat2Z.id.
    now rewrite Hk0. }
  assert (Py.getitem (fg_pins_list st) (Z.of_nat k + 1) = Ok None) as H1.
  { unfold Py.getitem. rewrite index_in_range by lia.
    replace (Z.to_nat (Z.of_nat k + 1)) with (S k) by lia.
    now rewrite Hk1. }
  split; [exact H0|]. split; [exact H1|].
  intros Hk7. unfold read_fan_fg_frequency.
  assert (in_range (Z.of_nat k + 1) (fan_count st) = true) as ->.
  { apply in_range_spec. change (fan_count st) with 8. lia. }
  cbn [negb]. now rewrite H1.
Qed.

Lemma irq_failure_shifts_pin_table_witness :
  let hw := fun pin => if pin =? 18 then FgIrqRaises else FgOk in
  let st := FanController_init (fun _ => Some false) hw in
  Py.getitem (fg_pins_list st) 1 = Ok (Some 18) /\
  Py.getitem (fg_pins_list st) 2 = Ok None /\
  read_fan_fg_frequency st 2 1000 = Ok (st, 0%Q) /\
  length (fg_pins_list st) = 9%nat.
Proof.
  intros hw st.
  destruct (irq_failure_shifts_pin_table (fun _ => Some false) hw 1 18 1000)
    as (H0 & H1 & H2).
  - reflexivity.
  - reflexivity.
  - intros j p Hj Hp. assert (j = 0%nat) as -> by lia.
    injection Hp as <-. discriminate.
  - split; [exact H0|]. split; [exact H1|]. split; [apply H2; lia | reflexivity].
Defined.

(** ** Reading every channel *)

Lemma range_from_length j n : length (range_from j n) = n.
Proof. revert j. induction n as [|n IH]; intros j; simpl; [reflexivity | now rewrite IH]. Qed.

Lemma dict_setitem_fresh {V} (d : PyDict.dict V) k v :
  Forall (fun kv => kv.1 <> k) d -> PyDict.setitem d k v = d ++ [(k, v)].
Proof.
  induction d as [|[k' v'] d IH]; intros Hd; [reflexivity|].
  apply Forall_cons in Hd as [Hk Hd]. cbn [PyDict.setitem].
  destruct (Z.eqb_spec k' k) as [->|_]; [now simpl in Hk|].
  now rewrite IH.
Qed.

Lemma dict_getitem_zip {V} (vs : list V) :
  forall j n i,
    length vs = n -> j <= i < j + Z.of_nat n ->
    exists v, vs !! Z.to_nat (i - j) = Some v /\
              PyDict.getitem (zip (range_from j n) vs) i = Ok v.
Proof.
  induction vs as [|v vs IH]; intros j n i Hlen Hi; simpl in Hlen; subst n; [simpl in Hi; lia|].
  cbn [range_from zip zip_with PyDict.getitem].
  destruct (Z.eqb_spec j i) as [->|Hne].
  - exists v. rewrite Z.sub_diag. split; reflexivity.
  - destruct (IH (j + 1) (length vs) i eq_refl) as (x & Hx & Hg); [lia|].
    exists x. split; [|exact Hg].
    replace (Z.to_nat (i - j)) with (S (Z.to_nat (i - (j + 1)))) by lia. exact Hx.
Qed.

Lemma range_from_bounds j n : Forall (fun k => j <= k < j + Z.of_nat n) (range_from j n).
Proof.
  revert j. induction n as [|n IH]; intros j; [constructor|].
  cbn [range_from]. constructor; [lia|].
  eapply Forall_impl; [apply IH|]. intros k Hk. simpl in Hk. lia.
Qed.

Lemma feedback_fold {V W} (g : V -> W) (vs : list V) :
  forall j n (fb : PyDict.dict W),
    length vs = n -> Forall (fun kv => kv.1 < j) fb ->
    fold_left (fun acc (item : Z * V) => PyDict.setitem acc item.1 (g item.2))
              (zip (range_from j n) vs) fb
    = fb ++ zip (range_from j n) (map g vs).
Proof.
  induction vs as [|v vs IH]; intros j n fb Hlen Hfb; simpl in Hlen; subst n.
  - simpl. now rewrite app_nil_r.
  - cbn [range_from zip zip_with fold_left map fst snd].
    rewrite dict_setitem_fresh.
    2:{ eapply Forall_impl; [exact Hfb|]. intros kv Hkv. simpl in *. lia. }
    rewrite (IH (j + 1) (length vs)); [now rewrite <- app_assoc | reflexivity |].
    apply Forall_app. split.
    + eapply Forall_impl; [exact Hfb|]. intros kv Hkv. simpl in *. lia.
    + repeat constructor. simpl. lia.
Qed.

Section ReadAll.
Variable clock : Z -> Z.
Variable ppr : Q.
Variable Inv : Z -> FanController -> Prop.
Variable P : Q -> Prop.
Hypothesis step : forall st i,
  wf st -> Inv i st -> in_range i (fan_count st) = true ->
  exists st1 r, read_fan_rpm st i (clock i) ppr = Ok (st1, r) /\
                wf st1 /\ fan_count st1 = fan_count st /\ Inv (i + 1) st1 /\ P r.

Lemma read_all_loop_gen n :
  forall st (j : nat) d,
    wf st -> Inv (Z.of_nat j) st -> Z.of_nat (j + n) <= fan_count st ->
    Forall (fun kv => kv.1 < Z.of_nat j) d ->
    exists st' vs,
      read_all_loop st clock ppr (Z.of_nat j) n d
        = Ok (st', d ++ zip (range_from (Z.of_nat j) n) vs) /\
      length vs = n /\ Forall P vs /\
      wf st' /\ fan_count st' = fan_count st /\ Inv (Z.of_nat (j + n)) st'.
Proof.
  induction n as [|n IH]; intros st j d Hwf Hinv Hle Hd.
  - exists st, []. simpl. rewrite app_nil_r.
    split; [reflexivity|]. split; [reflexivity|]. split; [constructor|].
    split; [exact Hwf|]. split; [reflexivity|]. now rewrite Nat.add_0_r.
  - destruct (step st (Z.of_nat j) Hwf Hinv) as (st1 & r & Hread & Hwf1 & Hn1 & Hinv1 & Hr).
    { apply in_range_spec. lia. }
    replace (Z.of_nat j + 1) with (Z.of_nat (S j)) in Hinv1 by lia.
    destruct (IH st1 (S j) (d ++ [(Z.of_nat j, r)]) Hwf1 Hinv1) as
      (st' & vs & Hloop & Hlen & Hall & Hwf' & Hn' & Hinv').
    { rewrite Hn1. lia. }
    { apply Forall_app. split.
      - eapply Forall_impl; [exact Hd|]. intros kv Hkv. simpl in *. lia.
      - repeat constructor. simpl. lia. }
    exists st', (r :: vs). cbn [read_all_loop]. rewrite Hread. cbn [mbind result_bind].
    rewrite dict_setitem_fresh.
    2:{ eapply Forall_impl; [exact Hd|]. intros kv Hkv. simpl in *. lia. }
    replace (Z.of_nat j + 1) with (Z.of_nat (S j)) by lia. rewrite Hloop.
    cbn [range_from zip zip_with]. rewrite <- app_assoc.
    replace (Z.of_nat j + 1) with (Z.of_nat (S j)) by lia.
    split; [reflexivity|]. split; [simpl; lia|]. split; [now constructor|].
    split; [exact Hwf'|]. split; [congruence|].
    now replace (j + S n)%nat with (S j + n)%nat by lia.
Qed.
End ReadAll.

Lemma read_fan_rpm_keeps st fan_id now ppr st1 rpm :
  wf st -> in_range fan_id (fan_count st) = true ->
  read_fan_rpm st fan_id now ppr = Ok (st1, rpm) ->
  wf st1 /\ fan_count st1 = fan_count st /\ fg_pins_list st1 = fg_pins_list st /\
  fan_pwms st1 = fan_pwms st /\
  (pinned st fan_id -> counter_of st1 fan_id = 0) /\
  forall c, in_range c (fan_count st) = true -> c <> fan_id ->
    counter_of st1 c = counter_of st c.
Proof.
  intros Hwf Hr Hread.
  assert (st1 = st /\ ~ pinned st fan_id \/ st1 = measured st fan_id now /\ pinned st fan_id)
    as Hcase.
  { destruct (read_fan_rpm_cases st fan_id now Hwf Hr) as [[Hn H]|[Hp H]];
      rewrite H in Hread.
    - left. injection Hread as <- _. split; [reflexivity|]. intros (pin & Hpin). congruence.
    - right. split; [|exact Hp].
      destruct (Qgt_bool _ _); [|congruence].
      destruct (Py.truediv _ _); [|discriminate].
      cbn [mbind result_bind] in Hread. congruence. }
  destruct Hcase as [[-> Hnp]|[-> Hp]].
  - split; [exact Hwf|]. repeat split. intros Hp. contradiction.
  - split; [now apply measured_wf|]. repeat split.
    + intros _. now apply measured_same.
    + intros c Hc Hne. apply in_range_spec in Hr, Hc. apply measured_other; lia.
Qed.

Lemma pinned_same st st1 c :
  fg_pins_list st1 = fg_pins_list st -> (pinned st1 c <-> pinned st c).
Proof. intros H. unfold pinned. now rewrite H. Qed.

(** One read of any channel keeps a drained controller drained and, on a
    drained controller, returns 0. *)
Lemma read_fan_rpm_on_drained st fan_id now ppr :
  wf st -> drained st -> in_range fan_id (fan_count st) = true ->
  exists st1,
    read_fan_rpm st fan_id now ppr = Ok (st1, 0%Q) /\
    wf st1 /\ fan_count st1 = fan_count st /\
    (fg_pins_list st1 = fg_pins_list st /\ fan_pwms st1 = fan_pwms st /\ drained st1).
Proof.
  intros Hwf Hdr Hr.
  assert (exists st1, read_fan_rpm st fan_id now ppr = Ok (st1, 0%Q)) as (st1 & Hread).
  { destruct (read_fan_rpm_cases st fan_id now Hwf Hr) as [[_ H]|[Hp H]];
      rewrite H; [eauto|].
    destruct (frequency_value_drained st fan_id now) as [_ ->]; [now apply Hdr | eauto]. }
  exists st1. split; [exact Hread|].
  destruct (read_fan_rpm_keeps _ _ _ _ _ _ Hwf Hr Hread)
    as (Hwf1 & Hn & Hpins & Hpwm & Hsame & Hother).
  split; [exact Hwf1|]. split; [exact Hn|]. split; [exact Hpins|]. split; [exact Hpwm|].
  intros c Hc Hpc. rewrite Hn in Hc. apply (pinned_same st st1 c Hpins) in Hpc.
  destruct (Z.eq_dec c fan_id) as [->|Hne]; [now apply Hsame|].
  rewrite Hother by assumption. now apply Hdr.
Qed.

Lemma read_all_pass_spec st clock ppr :
  wf st -> (0 < ppr)%Q ->
  exists st' rpms,
    read_all_fans_rpm st clock ppr
      = Ok (st', zip (range_from 0 (Z.to_nat (fan_count st))) rpms) /\
    length rpms = Z.to_nat (fan_count st) /\
    Forall (fun rpm => (0 <= rpm)%Q) rpms /\
    wf st' /\ fan_count st' = fan_count st /\
    fan_pwms st' = fan_pwms st /\ fg_pins_list st' = fg_pins_list st /\
    drained st'.
Proof.
  intros Hwf Hppr. pose proof Hwf as (H0 & _).
  set (Inv := fun (i : Z) (s : FanController) =>
    fan_count s = fan_count st /\ fg_pins_list s = fg_pins_list st /\
    fan_pwms s = fan_pwms st /\
    forall c, 0 <= c < i -> pinned st c -> counter_of s c = 0).
  destruct (read_all_loop_gen clock ppr Inv (fun rpm => (0 <= rpm)%Q)) with
    (n := Z.to_nat (fan_count st)) (st := st) (j := 0%nat) (d := @nil (Z * Q))
    as (st' & vs & Hloop & Hlen & Hall & Hwf' & Hn' & Hc' & Hpins' & Hpwm' & Hdr').
  - intros s i Hwfs (Hn & Hpins & Hpwm & Hzero) Hi.
    destruct (read_fan_rpm_nonneg_total s i (clock i) ppr Hwfs Hppr) as (s1 & r & Hread & Hr).
    destruct (read_fan_rpm_keeps _ _ _ _ _ _ Hwfs Hi Hread)
      as (Hwf1 & Hn1 & Hpins1 & Hpwm1 & Hsame & Hother).
    exists s1, r. split; [exact Hread|]. split; [exact Hwf1|]. split; [exact Hn1|].
    split; [|exact Hr].
    split; [congruence|]. split; [congruence|]. split; [congruence|].
    intros c Hc Hpc. apply in_range_spec in Hi.
    destruct (Z.eq_dec c i) as [->|Hne].
    + apply Hsame. now apply (pinned_same st s i Hpins).
    + rewrite Hother; [apply Hzero; [lia | exact Hpc] | apply in_range_spec; lia | exact Hne].
  - exact Hwf.
  - repeat split. intros c Hc. simpl in Hc. lia.
  - simpl. lia.
  - constructor.
  - exists st', vs. split; [exact Hloop|]. split; [exact Hlen|]. split; [exact Hall|].
    split; [exact Hwf'|]. split; [exact Hn'|]. split; [exact Hpwm'|]. split; [exact Hpins'|].
    intros c Hc Hpc. rewrite Hn' in Hc. apply in_range_spec in Hc.
    apply Hdr'; [lia|]. now apply (pinned_same st st' c Hpins').
Qed.





Lemma read_all_on_drained st clock ppr :
  wf st -> drained st ->
  exists st',
    read_all_fans_rpm st clock ppr
      = Ok (st', zip (range_from 0 (Z.to_nat (fan_count st)))
                     (replicate (Z.to_nat (fan_count st)) 0%Q)) /\
    wf st' /\ fan_count st' = fan_count st /\
    fg_pins_list st' = fg_pins_list st /\ fan_pwms st' = fan_pwms st /\ drained st'.
Proof.
  intros Hwf Hdr. pose proof Hwf as (H0 & _).
  set (Inv := fun (_ : Z) (s : FanController) =>
    fg_pins_list s = fg_pins_list st /\ fan_pwms s = fan_pwms st /\ drained s).
  destruct (read_all_loop_gen clock ppr Inv (fun rpm => rpm = 0%Q)) with
    (n := Z.to_nat (fan_count st)) (st := st) (j := 0%nat) (d := @nil (Z * Q))
    as (st' & vs & Hloop & Hlen & Hall & Hwf' & Hn' & Hpins' & Hpwm' & Hdr').
  - intros s i Hwfs (Hpins & Hpwm & Hdrs) Hi.
    destruct (read_fan_rpm_on_drained s i (clock i) ppr Hwfs Hdrs Hi)
      as (s1 & Hread & Hwf1 & Hn1 & Hpins1 & Hpwm1 & Hdr1).
    exists s1, 0%Q. split; [exact Hread|]. split; [exact Hwf1|]. split; [exact Hn1|].
    split; [|reflexivity]. split; [congruence|]. split; [congruence | exact Hdr1].
  - exact Hwf.
  - split; [reflexivity|]. split; [reflexivity | exact Hdr].
  - simpl. lia.
  - constructor.
  - exists st'. split; [|split; [exact Hwf'|]; split; [exact Hn'|]; split; [exact Hpins'|];
                            split; [exact Hpwm' | exact Hdr']].
    unfold read_all_fans_rpm. change 0 with (Z.of_nat 0). rewrite Hloop. simpl app.
    assert (vs = replicate (Z.to_nat (fan_count st)) 0%Q) as ->; [|reflexivity].
    rewrite <- Hlen. clear -Hall. induction Hall as [|v vs -> _ IH]; [reflexivity|].
    cbn [length replicate]. now rewrite <- IH.
Qed.

Lemma map_replicate {A B} (g : A -> B) n x : map g (replicate n x) = replicate n (g x).
Proof. induction n as [|n IH]; simpl; [reflexivity | now rewrite IH]. Qed.

(** [read_all_fans_feedback] called right after [read_all_fans_rpm], with
    no edge arriving in between, reports every channel as not running for any
    threshold that is not negative: its own pass over the channels finds the
    counters already emptied. *)
Theorem feedback_after_read_all st clock1 clock2 ppr threshold :
  wf st -> (0 < ppr)%Q -> (0 <= threshold)%Q ->
  exists st1 rpm_data st2,
    read_all_fans_rpm st clock1 ppr = Ok (st1, rpm_data) /\
    read_all_fans_feedback st1 clock2 threshold
      = Ok (st2, zip (range_from 0 (Z.to_nat (fan_count st)))
                     (replicate (Z.to_nat (fan_count st)) false)).
Proof.
  intros Hwf Hppr Hth.
  destruct (read_all_pass_spec st clock1 ppr Hwf Hppr)
    as (st1 & rpms & Hrun & _ & _ & Hwf1 & Hn1 & _ & _ & Hdr1).
  destruct (read_all_on_drained st1 clock2 2 Hwf1 Hdr1) as (st2 & Hrun2 & _).
  eexists _, _, st2. split; [exact Hrun|].
  unfold read_all_fans_feedback. rewrite Hrun2. cbn [mbind result_bind]. rewrite Hn1.
  rewrite (feedback_fold (fun rpm => Qgt_bool rpm threshold));
    [| apply length_replicate | constructor].
  simpl app. rewrite map_replicate.
  replace (Qgt_bool 0 threshold) with false; [reflexivity|].
  symmetry. now apply Qgt_bool_false.
Qed.

Lemma feedback_after_read_all_witness :
  exists st1 rpm_data st2,
    read_all_fans_rpm (board_with_edges 100) (fun _ => 2000) 2 = Ok (st1, rpm_data) /\
    PyDict.getitem rpm_data 0 = Ok (Py.round1 1500) /\
    read_all_fans_feedback st1 (fun _ => 2001) 500
      = Ok (st2, zip (range_from 0 8) (replicate 8 false)).
Proof.
  destruct (feedback_after_read_all (board_with_edges 100) (fun _ => 2000)
              (fun _ => 2001) 2 500)
    as (st1 & rpm_data & st2 & Hrun & Hfb).
  - wf_by_computation.
  - reflexivity.
  - discriminate.
  - exists st1, rpm_data, st2. split; [exact Hrun|]. split; [|exact Hfb].
    vm_compute in Hrun. injection Hrun as _ <-. reflexivity.
Defined.

(** ** The status report *)

Lemma read_fan_fg_frequency_on_drained st fan_id now :
  wf st -> drained st -> in_range fan_id (fan_count st) = true ->
  exists st1 f,
    read_fan_fg_frequency st fan_id now = Ok (st1, f) /\ (f == 0)%Q /\
    wf st1 /\ fan_count st1 = fan_count st /\ fan_pwms st1 = fan_pwms st /\ drained st1.
Proof.
  intros Hwf Hdr Hr.
  destruct (read_fan_rpm_on_drained st fan_id now 2 Hwf Hdr Hr)
    as (st1 & Hrpm & Hwf1 & Hn1 & _ & Hpwm1 & Hdr1).
  unfold read_fan_rpm in Hrpm.
  destruct (read_fan_fg_frequency st fan_id now) as [[st' f]|] eqn:Hf; [|discriminate].
  cbn [mbind result_bind] in Hrpm.
  assert (st' = st1) as ->.
  { destruct (Qgt_bool f 0); [|congruence].
    change (Py.truediv (f * 60) 2) with (Ok (f * 60 / 2)%Q) in Hrpm.
    cbn [mbind result_bind] in Hrpm. congruence. }
  exists st1, f. split; [reflexivity|].
  split; [|split; [exact Hwf1|]; split; [exact Hn1|]; split; [exact Hpwm1 | exact Hdr1]].
  destruct (read_fan_fg_frequency_cases st fan_id now Hwf Hr) as [[_ H]|[Hp H]];
    rewrite H in Hf; injection Hf as _ <-; [reflexivity|].
  now apply frequency_value_drained, Hdr.
Qed.

Lemma status_loop_spec clock (N : nat) (vs : list Q) n :
  length vs = N ->
  forall st (j : nat) rows,
    wf st -> drained st -> fan_count st = Z.of_nat N -> (j + n <= N)%nat ->
    exists st' rows',
      status_loop st clock (zip (range_from 0 N) vs)
        (zip (range_from 0 N) (replicate N false)) (Z.of_nat j) n rows
        = Ok (st', rows ++ rows') /\
      Forall2 row_matches rows'
        (zip (take n (drop j (fan_pwms st))) (take n (drop j vs))) /\
      wf st' /\ drained st' /\ fan_pwms st' = fan_pwms st /\ fan_count st' = fan_count st.
Proof.
  intros Hvs. induction n as [|n IH]; intros st j rows Hwf Hdr HN Hle.
  - exists st, []. simpl. rewrite app_nil_r.
    split; [reflexivity|]. split; [constructor|].
    split; [exact Hwf|]. split; [exact Hdr|]. split; reflexivity.
  - pose proof Hwf as (H0 & Hlen & _).
    assert (in_range (Z.of_nat j) (fan_count st) = true) as Hr by (apply in_range_spec; lia).
    destruct (getitem_in_range (fan_pwms st) (Z.of_nat j)) as (p & Hp & Hget); [lia|].
    rewrite Nat2Z.id in Hp.
    destruct (dict_getitem_zip vs 0 N (Z.of_nat j) Hvs) as (v & Hv & Hgv); [lia|].
    rewrite Z.sub_0_r, Nat2Z.id in Hv.
    destruct (dict_getitem_zip (replicate N false) 0 N (Z.of_nat j)) as (b & Hb & Hgb);
      [apply length_replicate | lia |].
    apply lookup_replicate in Hb as [-> _].
    cbn [status_loop]. rewrite Hget. cbn [mbind result_bind].
    rewrite (drop_S _ _ _ Hp), (drop_S _ _ _ Hv). cbn [take zip zip_with].
    replace (Z.of_nat j + 1) with (Z.of_nat (S j)) by lia.
    destruct p as [pwm|].
    + rewrite Hgv. cbn [mbind result_bind].
      destruct (read_fan_fg_frequency_on_drained st (Z.of_nat j) (clock (Z.of_nat j))
                  Hwf Hdr Hr) as (st1 & f & Hread & Hf & Hwf1 & Hn1 & Hpwm1 & Hdr1).
      rewrite Hread. cbn [mbind result_bind]. rewrite Hgb. cbn [mbind result_bind].
      destruct (IH st1 (S j) (rows ++ [Some {| row_speed := status_speed (pwm_duty pwm);
                  row_rpm := v; row_fg := f; row_normal := false |}]) Hwf1 Hdr1)
        as (st' & rows' & Hloop & Hrows & Hwf' & Hdr' & Hpwm' & Hn'); [congruence | lia |].
      rewrite Hloop, <- app_assoc. eexists _, _. split; [reflexivity|].
      split; [|split; [exact Hwf'|]; split; [exact Hdr'|]; split; congruence].
      constructor; [|now rewrite <- Hpwm1].
      unfold row_matches. cbn [fst snd row_speed row_rpm row_normal row_fg].
      repeat split. exact Hf.
    + destruct (IH st (S j) (rows ++ [None]) Hwf Hdr HN)
        as (st' & rows' & Hloop & Hrows & Hwf' & Hdr' & Hpwm' & Hn'); [lia|].
      rewrite Hloop, <- app_assoc. eexists _, _. split; [reflexivity|].
      split; [|split; [exact Hwf'|]; split; [exact Hdr'|]; split; assumption].
      constructor; [exact I | exact Hrows].
Qed.

(** [get_status_report] returns the speeds of its first pass over the
    channels and changes no duty.  When no edge arrives while it runs, every
    line it prints for a channel with a PWM object carries that first-pass
    speed next to the verdict "abnormal" and a frequency of 0, because the
    verdict and the frequency come from a second and a third read of counters
    the first pass has emptied. *)
Theorem get_status_report_rows st clock1 clock2 clock3 :
  wf st ->
  exists st1 st3 rpms rows,
    read_all_fans_rpm st clock1 2
      = Ok (st1, zip (range_from 0 (Z.to_nat (fan_count st))) rpms) /\
    get_status_report st clock1 clock2 clock3
      = Ok (st3, zip (range_from 0 (Z.to_nat (fan_count st))) rpms, rows) /\
    Forall2 row_matches rows (zip (fan_pwms st) rpms) /\
    fan_pwms st3 = fan_pwms st.
Proof.
  intros Hwf. pose proof Hwf as (H0 & Hlen & _).
  destruct (read_all_pass_spec st clock1 2 Hwf eq_refl)
    as (st1 & rpms & Hrun & Hlr & _ & Hwf1 & Hn1 & Hpwm1 & _ & Hdr1).
  destruct (read_all_on_drained st1 clock2 2 Hwf1 Hdr1)
    as (st2 & Hrun2 & Hwf2 & Hn2 & _ & Hpwm2 & Hdr2).
  destruct (status_loop_spec clock3 (Z.to_nat (fan_count st)) rpms
              (Z.to_nat (fan_count st)) Hlr st2 0%nat [] Hwf2 Hdr2)
    as (st3 & rows & Hloop & Hrows & _ & _ & Hpwm3 & _); [lia | lia |].
  exists st1, st3, rpms, rows. split; [exact Hrun|].
  unfold get_status_report, read_all_fans_feedback.
  rewrite Hrun. cbn [mbind result_bind]. rewrite Hrun2. cbn [mbind result_bind].
  rewrite (feedback_fold (fun rpm => Qgt_bool rpm 500));
    [| apply length_replicate | constructor].
  rewrite map_replicate. simpl app.
  change (Qgt_bool 0 500) with false.
  rewrite Hn2, Hn1. change (Z.of_nat 0) with 0 in Hloop. rewrite Hloop.
  cbn [mbind result_bind]. split; [reflexivity|].
  split; [|congruence].
  rewrite !drop_0 in Hrows. rewrite Hpwm2, Hpwm1 in Hrows.
  rewrite !firstn_all2 in Hrows by lia. exact Hrows.
Qed.

Lemma get_status_report_rows_witness :
  exists st1 st3 rpms rows,
    read_all_fans_rpm (board_with_edges 100) (fun _ => 2000) 2
      = Ok (st1, zip (range_from 0 8) rpms) /\
    get_status_report (board_with_edges 100) (fun _ => 2000) (fun _ => 2001) (fun _ => 2002)
      = Ok (st3, zip (range_from 0 8) rpms, rows) /\
    Forall2 row_matches rows (zip (fan_pwms (board_with_edges 100)) rpms) /\
    rows !! 0%nat = Some (Some {| row_speed := 0; row_rpm := Py.round1 1500;
                                   row_fg := 0 # 2; row_normal := false |}).
Proof.
  destruct (get_status_report_rows (board_with_edges 100)
              (fun _ => 2000) (fun _ => 2001) (fun _ => 2002))
    as (st1 & st3 & rpms & rows & Hrun & Hrep & Hrows & _).
  - wf_by_computation.
  - exists st1, st3, rpms, rows. split; [exact Hrun|]. split; [exact Hrep|].
    split; [exact Hrows|].
    vm_compute in Hrep. injection Hrep as _ _ <-. reflexivity.
Defined.

(** ** The configuration manager *)

Lemma validate_config_spec cfg :
  validate_config cfg = true <->
  Zbetween 1000 (pwm_frequency cfg) 50000 = true /\
  Qbetween 1 (system_timeout cfg) 300 = true /\
  Qbetween 1 (stability_threshold cfg) 50 = true /\
  Zbetween 1 (fans_pulses_per_revolution cfg) 10 = true /\
  Qle_bool (fans_max_rpm cfg) (fans_min_rpm cfg) = false /\
  pin_count_wrong cfg = false /\ pin_conflict cfg = false.
Proof.
  unfold validate_config, validate_errors. cbv zeta.
  fold (pin_count_wrong cfg). fold (pin_conflict cfg).
  destruct (Zbetween 1000 (pwm_frequency cfg) 50000),
           (Qbetween 1 (system_timeout cfg) 300),
           (Qbetween 1 (stability_threshold cfg) 50),
           (Zbetween 1 (fans_pulses_per_revolution cfg) 10),
           (Qle_bool (fans_max_rpm cfg) (fans_min_rpm cfg)),
           (pin_count_wrong cfg), (pin_conflict cfg);
    cbn; (split; [try discriminate; intros _; repeat split
                 | intros (? & ? & ? & ? & ? & ? & ?); try reflexivity; discriminate]).
Qed.

Lemma edit_turn_fixed cfg i :
  pins_control (edit_turn cfg i) = pins_control cfg /\
  pins_fg (edit_turn cfg i) = pins_fg cfg /\
  pwm_resolution (edit_turn cfg i) = pwm_resolution cfg /\
  fans_min_rpm (edit_turn cfg i) = fans_min_rpm cfg /\
  fans_max_rpm (edit_turn cfg i) = fans_max_rpm cfg.
Proof.
  destruct i as [[v|]|[v|]|[v|]|[v|]| |]; cbn [edit_turn]; try (repeat split; fail).
  - destruct (Zbetween 1000 v 50000); repeat split.
  - destruct (Qbetween 1 v 300); repeat split.
  - destruct (Qbetween 1 v 50); repeat split.
  - destruct (Zbetween 1 v 10); repeat split.
Qed.

Lemma edit_turn_valid cfg i :
  validate_config cfg = true -> validate_config (edit_turn cfg i) = true.
Proof.
  rewrite !validate_config_spec. intros (Hf & Ht & Hs & Hp & Hr & Hc & Hx).
  destruct i as [[v|]|[v|]|[v|]|[v|]| |]; cbn [edit_turn]; try (repeat split; assumption).
  - destruct (Zbetween 1000 v 50000) eqn:E; repeat split; assumption.
  - destruct (Qbetween 1 v 300) eqn:E; repeat split; assumption.
  - destruct (Qbetween 1 v 50) eqn:E; repeat split; assumption.
  - destruct (Zbetween 1 v 10) eqn:E; repeat split; assumption.
Qed.

(** Whatever is typed into the menu of [edit_config], a configuration that
    [validate_config] accepts is still accepted afterwards: the menu takes a
    value only inside the range that the validation checks for it, and it
    never touches the pins, the resolution or the RPM limits. *)
Theorem edit_config_keeps_valid cfg inputs :
  validate_config cfg = true ->
  validate_config (edit_config cfg inputs) = true /\
  pins_control (edit_config cfg inputs) = pins_control cfg /\
  pins_fg (edit_config cfg inputs) = pins_fg cfg /\
  pwm_resolution (edit_config cfg inputs) = pwm_resolution cfg /\
  fans_min_rpm (edit_config cfg inputs) = fans_min_rpm cfg /\
  fans_max_rpm (edit_config cfg inputs) = fans_max_rpm cfg.
Proof.
  revert cfg. induction inputs as [|i inputs IH]; intros cfg Hv.
  - repeat split. exact Hv.
  - assert (edit_config cfg (i :: inputs) = cfg \/
            edit_config cfg (i :: inputs) = edit_config (edit_turn cfg i) inputs) as [->| ->].
    { destruct i; cbn [edit_config]; auto. }
    + repeat split. exact Hv.
    + destruct (IH (edit_turn cfg i) (edit_turn_valid cfg i Hv)) as (H1 & H2 & H3 & H4 & H5 & H6).
      destruct (edit_turn_fixed cfg i) as (F2 & F3 & F4 & F5 & F6).
      split; [exact H1|]. repeat split; congruence.
Qed.

Lemma edit_config_keeps_valid_witness :
  let inputs := [EditFrequency (Some 30000); EditTimeout (Some 500%Q); EditPulses None;
                 EditThreshold (Some (5 # 2)); EditOther; EditDone;
                 EditFrequency (Some 2000)] in
  validate_config (edit_config sample_config inputs) = true /\
  pwm_frequency (edit_config sample_config inputs) = 30000 /\
  system_timeout (edit_config sample_config inputs) = 10%Q /\
  stability_threshold (edit_config sample_config inputs) = (5 # 2)%Q.
Proof.
  intros inputs.
  destruct (edit_config_keeps_valid sample_config inputs) as (Hv & _).
  - reflexivity.
  - split; [exact Hv|]. repeat split.
Defined.
